(** * ghmirror.core.mirror_requests: conditional requests of the GitHub mirror

    A shallow embedding of [src/ghmirror/core/mirror_requests.py] and the
    properties of its online handler, offline handler and dispatcher.

    The Python module works on mutable [requests.Response] objects that are
    shared between the process-wide cache and the caller, so responses live
    in an explicit object heap and the cache binds keys to heap locations.
    Every call on a collaborator (transport, cache) is recorded in a trace. *)

From Stdlib Require Import ZArith String Ascii List.
From stdpp Require Import base option list gmap strings fin_maps.

Local Open Scope string_scope.
Local Open Scope list_scope.
Local Open Scope Z_scope.
Local Set Warnings "-register-all".

(** ** Strings *)

Module Str.

(** The double-quote and line-feed characters, by code. *)
Definition dquote : string := String (ascii_of_nat 34) EmptyString.
Definition newline : string := String (ascii_of_nat 10) EmptyString.

(** [str.lower()] on ASCII text, which is what header names are. *)
Definition lower_ascii (c : ascii) : ascii :=
  let n := nat_of_ascii c in
  if ((65 <=? n)%nat && (n <=? 90)%nat)%bool then ascii_of_nat (n + 32) else c.

Fixpoint lower (s : string) : string :=
  match s with
  | EmptyString => EmptyString
  | String c t => String (lower_ascii c) (lower t)
  end.

(** [hay.startswith(needle)] *)
Fixpoint starts_with (needle hay : string) : bool :=
  match needle, hay with
  | EmptyString, _ => true
  | String _ _, EmptyString => false
  | String c n, String d h => Ascii.eqb c d && starts_with n h
  end.

(** Python's [needle in hay] on strings: some suffix of [hay] starts with
    [needle]. *)
Fixpoint contains (needle hay : string) : bool :=
  starts_with needle hay ||
  match hay with
  | EmptyString => false
  | String _ t => contains needle t
  end.

End Str.

(** ** Values of the Python side *)

(** What [Response.json()] can decode to. *)
Inductive json : Type :=
| JNull
| JBool (b : bool)
| JNumber (z : Z)
| JString (s : string)
| JArray (items : list json)
| JObject (members : list (string * json)).

(** [len(v)] of a decoded body: defined on arrays, objects (one member per
    key) and strings, a [TypeError] on the rest. *)
Definition py_len (v : json) : option nat :=
  match v with
  | JArray items => Some (length items)
  | JObject members => Some (length members)
  | JString s => Some (String.length s)
  | JNull | JBool _ | JNumber _ => None
  end.

(** Values of the outgoing query: the caller's strings, or the integer
    constant that [online_request] injects. *)
Inductive param_value : Type :=
| PStr (s : string)
| PInt (z : Z).

(** [url_params] is a multi-dict: ordered, with repeated keys. *)
Abbreviation MultiDict := (list (string * string)).

(** [url_params.get(k)]: the first value of [k]. *)
Fixpoint multidict_get (k : string) (d : MultiDict) : option string :=
  match d with
  | [] => None
  | (k', v) :: rest => if String.eqb k k' then Some v else multidict_get k rest
  end.

(** [url_params.to_dict()]: a flat dict holding the first value of each key. *)
Definition to_dict (d : MultiDict) : gmap string param_value :=
  foldr (fun kv acc => <[kv.1 := PStr kv.2]> acc) ∅ d.

(** ** Case-insensitive header mapping of a response

    [requests] keeps response headers in a [CaseInsensitiveDict]: entries
    are indexed by the lower-cased name and remember the spelling last
    used to set them. *)

Abbreviation CIDict := (gmap string (string * string)).

Module CI.

Definition get (k : string) (d : CIDict) : option string :=
  snd <$> d !! Str.lower k.

Definition mem (k : string) (d : CIDict) : bool :=
  bool_decide (is_Some (d !! Str.lower k)).

Definition set (k v : string) (d : CIDict) : CIDict :=
  <[Str.lower k := (k, v)]> d.

End CI.

(** ** Requests, responses, cache keys *)

(** A response object, by what the module reads of it: [text] and
    [content] are one field, [json()] and [links] are computed from the
    body and from the [Link] header. *)
Record Response : Type := mkResponse {
  status_code : Z;
  headers : CIDict;
  content : string
}.

(** [resp.headers[k] = v] *)
Definition with_header (k v : string) (r : Response) : Response :=
  {| status_code := status_code r;
     headers := CI.set k v (headers r);
     content := content r |}.

Record Request : Type := mkRequest {
  req_method : string;
  req_url : string;
  req_headers : gmap string string;
  req_data : option string;
  req_timeout : Z;
  req_params : gmap string param_value
}.

(** [(url, auth_sha)] *)
Abbreviation CacheKey := (string * option string)%type.

(** One parsed entry of a [Link] header: its parameters, [url] among them. *)
Abbreviation Link := (gmap string string).

(** ** The environment of the module

    Constants of [ghmirror.core.constants], and the library functions the
    module calls; none of them is defined in this module. *)

Class Externals : Type := {
  PER_PAGE_ELEMENTS : Z;
  REQUESTS_TIMEOUT : Z;
  (** [hashlib.sha1(s.encode()).hexdigest()] *)
  sha1_hexdigest : string -> string;
  (** [int(s)]; [None] where Python raises [ValueError] *)
  py_int : string -> option Z;
  (** [json.loads] on a body; [None] where decoding raises *)
  json_loads : string -> option json;
  (** [requests.utils.parse_header_links] *)
  parse_header_links : string -> list Link
}.

(** ** The world: object heap, cache, health flag, trace *)

(** Calls on the collaborators, in the order they are made. *)
Inductive event : Type :=
| EvSend (rq : Request)                 (* requests.request(...) *)
| EvContains (k : CacheKey)             (* key in cache *)
| EvGet (k : CacheKey)                  (* cache[key] *)
| EvSet (k : CacheKey) (l : nat).       (* cache[key] = resp *)

(** Modelled from the spec: [RequestsCache] and [GithubStatus] are not part
    of this module. The spec gives the cache as a process-wide key/value
    store with membership test, get and set, and the health signal as one
    process-wide boolean that this module only reads. The store keeps the
    response objects handed to it (it binds keys to heap locations), so an
    object read from it is the stored object itself. *)
Record World : Type := mkWorld {
  online : bool;
  heap : list Response;
  cache : gmap CacheKey nat;
  trace : list event
}.

Definition is_send (e : event) : option Request :=
  match e with EvSend rq => Some rq | _ => None end.

Definition is_cache_event (e : event) : bool :=
  match e with EvSend _ => false | _ => true end.

(** The requests sent so far, oldest first. *)
Definition sent (w : World) : list Request := omap is_send (trace w).

(** The four ways the module changes the world. *)

(** A collaborator is called. *)
Definition log (e : event) (w : World) : World :=
  {| online := online w; heap := heap w; cache := cache w;
     trace := trace w ++ [e] |}.

(** A new object comes to life, at location [length (heap w)]. *)
Definition push (r : Response) (w : World) : World :=
  {| online := online w; heap := heap w ++ [r]; cache := cache w;
     trace := trace w |}.

(** The object at [l] is overwritten in place. *)
Definition store (l : nat) (r : Response) (w : World) : World :=
  {| online := online w; heap := <[l := r]> (heap w); cache := cache w;
     trace := trace w |}.

(** The key [k] is bound to the object at [l]. *)
Definition bind_key (k : CacheKey) (l : nat) (w : World) : World :=
  {| online := online w; heap := heap w; cache := <[k := l]> (cache w);
     trace := trace w |}.

(** ** Computations that may raise *)

Inductive exn : Type :=
| ValueError            (* int() on a malformed literal *)
| KeyError              (* dict.pop / cache[...] on an absent key *)
| AttributeError        (* attribute access on None *)
| TypeError             (* len() of an unsized value *)
| JSONDecodeError       (* Response.json() on an undecodable body *)
| RequestException      (* the transport failed *)
| InvalidReference.     (* a location outside the heap; no Python counterpart *)

Inductive result (A : Type) : Type :=
| Ok (a : A) (w : World)
| Raise (e : exn) (w : World).
Arguments Ok {A} a w.
Arguments Raise {A} e w.

Definition M (A : Type) : Type := World -> result A.

Definition ret {A} (a : A) : M A := fun w => Ok a w.

Definition raise {A} (e : exn) : M A := fun w => Raise e w.

Definition bind {A B} (m : M A) (f : A -> M B) : M B :=
  fun w => match m w with
           | Ok a w' => f a w'
           | Raise e w' => Raise e w'
           end.

Notation "x <- m ;; k" := (bind m (fun x => k))
  (at level 100, m at next level, right associativity).
Notation "m ;;; k" := (bind m (fun _ => k))
  (at level 100, right associativity).

Definition of_option {A} (e : exn) (o : option A) : M A :=
  match o with Some a => ret a | None => raise e end.

Definition world_of {A} (r : result A) : World :=
  match r with Ok _ w => w | Raise _ w => w end.

(** ** The module *)

Section MirrorRequests.

Context {E : Externals}.

(** The transport collaborator: the upstream's answer to a request, given
    the requests sent before it; [None] when the call fails. *)
Variable upstream : list Request -> Request -> option Response.

(** *** Operations on the collaborators and on response objects *)

Definition alloc (r : Response) : M nat := fun w =>
  Ok (length (heap w)) (push r w).

(** [requests.request(...)]: the call is logged, and its answer is a new
    response object. *)
Definition requests_request (rq : Request) : M nat := fun w =>
  match upstream (sent w) rq with
  | Some r => alloc r (log (EvSend rq) w)
  | None => Raise RequestException (log (EvSend rq) w)
  end.

Definition deref (l : nat) : M Response := fun w =>
  match heap w !! l with
  | Some r => Ok r w
  | None => Raise InvalidReference w
  end.

(** [obj.headers[k] = v], on the object at [l]. *)
Definition set_header (l : nat) (k v : string) : M unit := fun w =>
  match heap w !! l with
  | Some r => Ok tt (store l (with_header k v r) w)
  | None => Raise InvalidReference w
  end.

(** [key in cache] *)
Definition cache_contains (k : CacheKey) : M bool := fun w =>
  Ok (bool_decide (is_Some (cache w !! k))) (log (EvContains k) w).

(** [cache[key]] *)
Definition cache_get (k : CacheKey) : M nat := fun w =>
  match cache w !! k with
  | Some l => Ok l (log (EvGet k) w)
  | None => Raise KeyError (log (EvGet k) w)
  end.

(** [cache[key] = resp] *)
Definition cache_set (k : CacheKey) (l : nat) : M unit := fun w =>
  Ok tt (bind_key k l (log (EvSet k l) w)).

(** [GithubStatus().online] *)
Definition github_status_online : M bool := fun w => Ok (online w) w.

(** [resp.json()] *)
Definition response_json (l : nat) : M json :=
  r <- deref l ;; of_option JSONDecodeError (json_loads (content r)).

(** The key under which [Response.links] files an entry:
    [link.get("rel") or link.get("url")]. *)
Definition link_key (lk : Link) : option string :=
  match lk !! "rel" with
  | Some r => if String.eqb r "" then lk !! "url" else Some r
  | None => lk !! "url"
  end.

(** The [links] property of a response: the entries of its [Link] header. *)
Definition links_of (r : Response) : gmap (option string) Link :=
  match CI.get "link" (headers r) with
  | Some h =>
      if String.eqb h "" then ∅
      else foldl (fun acc lk => <[link_key lk := lk]> acc) ∅
                 (parse_header_links h)
  | None => ∅
  end.

(** [dict.pop(k)] on the outgoing headers. *)
Definition dict_pop (k : string) (d : gmap string string)
  : M (gmap string string) :=
  match d !! k with
  | Some _ => ret (delete k d)
  | None => raise KeyError
  end.

(** *** [_get_elements_per_page] *)

Definition _get_elements_per_page (url_params : option MultiDict)
  : M (option Z) :=
  match url_params with
  | Some d =>
      match multidict_get "per_page" d with
      | Some per_page => n <- of_option ValueError (py_int per_page) ;;
                         ret (Some n)
      | None => ret None
      end
  | None => ret None
  end.

(** *** [_cache_response] *)

Definition _cache_response (resp : nat) (cache_key : CacheKey) : M unit :=
  r <- deref resp ;;
  if (status_code r =? 200) &&
     (CI.mem "ETag" (headers r) || CI.mem "Last-Modified" (headers r))
  then cache_set cache_key resp
  else ret tt.

(** *** [_should_serve_from_cache] *)

Definition rate_limit_messages : list string :=
  ["API rate limit exceeded"; "abuse detection mechanism"].

Definition _should_serve_from_cache (response : nat) : M bool :=
  r <- deref response ;;
  ret ((status_code r =? 403) &&
       existsb (fun m => Str.contains m (content r)) rate_limit_messages).

(** *** [online_request] *)

(** Line 79: [url_params.to_dict() if url_params is not None else {}]. *)
Definition initial_parameters (url_params : option MultiDict)
  : gmap string param_value :=
  match url_params with
  | Some d => to_dict d
  | None => ∅
  end.

(** Lines 81-85: the page size in force and the outgoing query. *)
Definition page_size (per_page : option Z)
    (parameters : gmap string param_value) : Z * gmap string param_value :=
  match per_page with
  | Some n => (n, parameters)
  | None => (PER_PAGE_ELEMENTS,
             <["per_page" := PInt PER_PAGE_ELEMENTS]> parameters)
  end.

(** Lines 87-91 and 183-187: the credential's digest and the header. *)
Definition authorize (auth : option string) (hdrs : gmap string string)
  : option string * gmap string string :=
  match auth with
  | None => (None, hdrs)
  | Some a => (Some (sha1_hexdigest a), <["Authorization" := a]> hdrs)
  end.

(** Lines 114-119: the validators of the cached response. *)
Definition conditional_headers (cached : Response)
    (hdrs : gmap string string) : gmap string string :=
  let hdrs := match CI.get "ETag" (headers cached) with
              | Some etag => <["If-None-Match" := etag]> hdrs
              | None => hdrs
              end in
  match CI.get "Last-Modified" (headers cached) with
  | Some last_mod => <["If-Modified-Since" := last_mod]> hdrs
  | None => hdrs
  end.

Definition online_request (method url : string) (auth : option string)
    (data : option string) (url_params : option MultiDict) : M nat :=
  let hdrs : gmap string string := ∅ in
  let parameters := initial_parameters url_params in
  per_page <- _get_elements_per_page url_params ;;
  let '(per_page_elements, parameters) := page_size per_page parameters in
  let '(auth_sha, hdrs) := authorize auth hdrs in
  if negb (String.eqb method "GET") then
    resp <- requests_request
              (mkRequest method url hdrs data REQUESTS_TIMEOUT parameters) ;;
    set_header resp "X-Cache" "ONLINE_MISS" ;;;
    ret resp
  else
    let cache_key := (url, auth_sha) in
    present <- cache_contains cache_key ;;
    cached_hdrs <-
      (if present : bool then
         c <- cache_get cache_key ;;
         r <- deref c ;;
         ret (Some c, conditional_headers r hdrs)
       else ret (None, hdrs)) ;;
    let '(cached_response, hdrs) := cached_hdrs in
    resp <- requests_request
              (mkRequest method url hdrs None REQUESTS_TIMEOUT parameters) ;;
    r <- deref resp ;;
    if status_code r =? 304 then
      c <- of_option AttributeError cached_response ;;
      body <- response_json c ;;
      n <- of_option TypeError (py_len body) ;;
      cr <- deref c ;;
      if (Z.of_nat n =? per_page_elements) &&
         bool_decide (links_of cr = ∅)
      then
        hdrs <- dict_pop "If-None-Match" hdrs ;;
        resp <- requests_request
                  (mkRequest method url hdrs None REQUESTS_TIMEOUT
                             parameters) ;;
        set_header resp "X-Cache" "ONLINE_MISS" ;;;
        _cache_response resp cache_key ;;;
        ret resp
      else
        set_header c "X-Cache" "ONLINE_HIT" ;;;
        ret c
    else
      limited <- _should_serve_from_cache resp ;;
      if limited : bool then
        match cached_response with
        | None =>
            set_header resp "X-Cache" "RATE_LIMITED_MISS" ;;;
            ret resp
        | Some c =>
            set_header c "X-Cache" "RATE_LIMITED_HIT" ;;;
            ret c
        end
      else
        set_header resp "X-Cache" "ONLINE_MISS" ;;;
        _cache_response resp cache_key ;;;
        ret resp.

(** *** [offline_request] *)

(** The text of the JSON object whose member [message] is
    [gateway timeout], quotes included. *)
Definition gateway_timeout_object : string :=
  "{" +:+ Str.dquote +:+ "message" +:+ Str.dquote +:+ ": " +:+
  Str.dquote +:+ "gateway timeout" +:+ Str.dquote +:+ "}".

(** The default of [error_message], line 178: the bytes of that object
    and a line feed. *)
Definition default_error_message : string :=
  gateway_timeout_object +:+ Str.newline.

(** Lines 195-199 and 216-220: a new response object with the error code,
    the diagnostic header and the error body. *)
Definition error_response (error_code : Z) (error_message : string)
  : Response :=
  {| status_code := error_code;
     headers := CI.set "X-Cache" "OFFLINE_MISS" ∅;
     content := error_message |}.

Definition offline_request (method url : string) (auth : option string)
    (error_code : Z) (error_message : string) : M nat :=
  let hdrs : gmap string string := ∅ in
  let '(auth_sha, hdrs) := authorize auth hdrs in
  if negb (String.eqb method "GET") then
    alloc (error_response error_code error_message)
  else
    let cache_key := (url, auth_sha) in
    present <- cache_contains cache_key ;;
    if present : bool then
      cached_response <- cache_get cache_key ;;
      set_header cached_response "X-Cache" "OFFLINE_HIT" ;;;
      ret cached_response
    else
      alloc (error_response error_code error_message).

(** *** [conditional_request]

    The metrics decorator only observes the call and is left out. *)
Definition conditional_request (method url : string) (auth : option string)
    (data : option string) (url_params : option MultiDict) : M nat :=
  up <- github_status_online ;;
  if up : bool then online_request method url auth data url_params
  else offline_request method url auth 504 default_error_message.

(** *** Vocabulary for the properties *)

(** The value of [per_page] in the query, when the query has one. *)
Definition requested_per_page (url_params : option MultiDict)
  : option string :=
  match url_params with
  | Some d => multidict_get "per_page" d
  | None => None
  end.

(** [n] is the effective page size of the request: its [per_page] read as
    an integer, or else the configured default. *)
Definition page_size_is (url_params : option MultiDict) (n : Z) : Prop :=
  match requested_per_page url_params with
  | Some s => py_int s = Some n
  | None => n = PER_PAGE_ELEMENTS
  end.

(** The query that goes out: the caller's, with the default page size put
    in when the caller gave none. *)
Definition outgoing_parameters (url_params : option MultiDict)
  : gmap string param_value :=
  match requested_per_page url_params with
  | Some _ => initial_parameters url_params
  | None => <["per_page" := PInt PER_PAGE_ELEMENTS]>
              (initial_parameters url_params)
  end.

(** The cache key of a request: [(url, auth_sha)]. *)
Definition cache_key (url : string) (auth : option string) : CacheKey :=
  (url, (authorize auth ∅).1).

(** The request a non-GET call forwards. *)
Definition forwarded_request (method url : string) (auth data : option string)
    (url_params : option MultiDict) : Request :=
  mkRequest method url (authorize auth ∅).2 data REQUESTS_TIMEOUT
            (outgoing_parameters url_params).

(** The GET sent when the cache has no entry for the key. *)
Definition plain_get (url : string) (auth : option string)
    (url_params : option MultiDict) : Request :=
  mkRequest "GET" url (authorize auth ∅).2 None REQUESTS_TIMEOUT
            (outgoing_parameters url_params).

(** The GET sent when the cache holds [cached] for the key. *)
Definition conditional_get (url : string) (auth : option string)
    (url_params : option MultiDict) (cached : Response) : Request :=
  mkRequest "GET" url (conditional_headers cached (authorize auth ∅).2) None
            REQUESTS_TIMEOUT (outgoing_parameters url_params).

(** The GET sent again after line 131 has popped [If-None-Match]. *)
Definition refetch_get (url : string) (auth : option string)
    (url_params : option MultiDict) (cached : Response) : Request :=
  mkRequest "GET" url
            (delete "If-None-Match"
                    (conditional_headers cached (authorize auth ∅).2))
            None REQUESTS_TIMEOUT (outgoing_parameters url_params).

(** The diagnostic header of a response. *)
Definition x_cache (r : Response) : option string :=
  CI.get "X-Cache" (headers r).

(** The number of elements of a response's body: [len(r.json())]. *)
Definition element_count (r : Response) : option nat :=
  match json_loads (content r) with
  | Some body => py_len body
  | None => None
  end.

(** A response that [_cache_response] stores. *)
Definition cacheable (r : Response) : Prop :=
  status_code r = 200 /\
  (is_Some (CI.get "ETag" (headers r)) \/
   is_Some (CI.get "Last-Modified" (headers r))).

(** A response whose text carries one of the rate-limit phrases. *)
Definition has_rate_limit_phrase (r : Response) : Prop :=
  exists m pre post,
    m ∈ rate_limit_messages /\ content r = pre +:+ m +:+ post.

(** The test of [_cache_response], lines 56-57. *)
Definition cacheableb (r : Response) : bool :=
  (status_code r =? 200) &&
  (CI.mem "ETag" (headers r) || CI.mem "Last-Modified" (headers r)).

(** The test of [_should_serve_from_cache], lines 173-174. *)
Definition rate_limitedb (r : Response) : bool :=
  (status_code r =? 403) &&
  existsb (fun m => Str.contains m (content r)) rate_limit_messages.

(** The test of lines 128-129 on the cached response, given its element
    count. *)
Definition full_last_page (n : Z) (len : nat) (cached : Response) : bool :=
  (Z.of_nat len =? n) && bool_decide (links_of cached = ∅).

(** The world after [_cache_response] has looked at the object [l]. *)
Definition cached_if_cacheable (k : CacheKey) (l : nat) (r : Response)
    (w : World) : World :=
  if cacheableb r then bind_key k l (log (EvSet k l) w) else w.

(** The world once the cache has been asked for a key it lacks. *)
Definition looked_up_miss (k : CacheKey) (w : World) : World :=
  log (EvContains k) w.

(** The world once the cache has been asked for a key and its entry read. *)
Definition looked_up_hit (k : CacheKey) (w : World) : World :=
  log (EvGet k) (log (EvContains k) w).

(** The world once the upstream has answered [rq] with the new object [r]. *)
Definition answered (rq : Request) (r : Response) (w : World) : World :=
  push r (log (EvSend rq) w).

(** The world once the object at [l], which held [r], carries the
    diagnostic [v]. *)
Definition tagged (l : nat) (v : string) (r : Response) (w : World) : World :=
  store l (with_header "X-Cache" v r) w.

(** [out] is the response [r] carrying the diagnostic [v]: same status,
    same body, same headers but for [X-Cache]. *)
Definition serves (v : string) (r out : Response) : Prop :=
  status_code out = status_code r /\
  content out = content r /\
  x_cache out = Some v /\
  forall h, Str.lower h <> Str.lower "X-Cache" ->
            CI.get h (headers out) = CI.get h (headers r).

(** The events that the call [res] added to the trace of [w]. *)
Definition new_events {A} (w : World) (res : result A) (evs : list event)
  : Prop :=
  trace (world_of res) = trace w ++ evs.

(** Every object the cache of [w] holds is, in [w'], what it was in [w]. *)
Definition stored_objects_unchanged (w w' : World) : Prop :=
  forall k l, cache w !! k = Some l -> heap w' !! l = heap w !! l.

End MirrorRequests.

(** ** A sample environment

    Concrete collaborators on which the module can be run: a page of two
    elements behind a URL, requested without a credential. *)

Module Sample.

(** [int] on unsigned decimal literals. *)
Fixpoint digits_value (s : string) (acc : Z) : option Z :=
  match s with
  | EmptyString => Some acc
  | String c t =>
      let n := nat_of_ascii c in
      if ((48 <=? n)%nat && (n <=? 57)%nat)%bool
      then digits_value t (10 * acc + Z.of_nat (n - 48))
      else None
  end.

Definition decimal (s : string) : option Z :=
  match s with
  | EmptyString => None
  | _ => digits_value s 0
  end.

Definition url : string := "https://api.github.com/orgs/app-sre/repos".

(** The header [<...?page=1>; rel=prev] (with the quotes GitHub puts
    around the relation), and its one entry. *)
Definition prev_url : string :=
  "https://api.github.com/orgs/app-sre/repos?page=1".

Definition prev_link_header : string :=
  "<" +:+ prev_url +:+ ">; rel=" +:+ Str.dquote +:+ "prev" +:+ Str.dquote.

Definition prev_link : Link := <["rel" := "prev"]> {["url" := prev_url]}.

(** Sample values of the two constants, and the library functions on the
    texts used here: the bodies [[1,2]] and [[1]] and the header above
    (other texts are left undecoded). The digest is that of the empty
    credential; the sample requests carry none. *)
Definition externals : Externals :=
  {| PER_PAGE_ELEMENTS := 100;
     REQUESTS_TIMEOUT := 10;
     sha1_hexdigest := fun _ => "da39a3ee5e6b4b0d3255bfef95601890afd80709";
     py_int := decimal;
     json_loads := fun s =>
       if String.eqb s "[1,2]" then Some (JArray [JNumber 1; JNumber 2])
       else if String.eqb s "[1]" then Some (JArray [JNumber 1])
       else None;
     parse_header_links := fun h =>
       if String.eqb h prev_link_header then [prev_link] else [] |}.

(** The query [?per_page=2]. *)
Definition two_per_page : option MultiDict := Some [("per_page", "2")].

Definition header_list (l : list (string * string)) : CIDict :=
  foldr (fun kv acc => CI.set kv.1 kv.2 acc) ∅ l.

(** Cached pages, as [online_request] left them: status 200, validators,
    and the diagnostic of the miss that stored them. *)
Definition page (validators : list (string * string)) (body : string)
  : Response :=
  {| status_code := 200;
     headers := header_list (("X-Cache", "ONLINE_MISS") :: validators);
     content := body |}.

Definition full_page : Response :=
  page [("ETag", "v1"); ("Last-Modified", "Mon, 02 Mar 2020 10:00:00 GMT")]
       "[1,2]".

Definition full_page_last_modified_only : Response :=
  page [("Last-Modified", "Mon, 02 Mar 2020 10:00:00 GMT")] "[1,2]".

Definition full_page_with_prev : Response :=
  page [("ETag", "v1"); ("Link", prev_link_header)] "[1,2]".

Definition short_page : Response := page [("ETag", "v1")] "[1]".

(** Answers of the upstream. *)
Definition not_modified : Response :=
  {| status_code := 304; headers := header_list [("ETag", "v1")];
     content := "" |}.

Definition fresh_page : Response :=
  {| status_code := 200; headers := header_list [("ETag", "v2")];
     content := "[1,2]" |}.

Definition bare_page : Response :=
  {| status_code := 200; headers := ∅; content := "[1,2]" |}.

Definition throttled : Response :=
  {| status_code := 403; headers := ∅;
     content := "API rate limit exceeded for 203.0.113.7." |}.


(** An upstream that honours validators: a request carrying
    [If-None-Match] or [If-Modified-Since] is answered 304, any other 200. *)
Definition revalidating (_ : list Request) (rq : Request) : option Response :=
  match req_headers rq !! "If-None-Match",
        req_headers rq !! "If-Modified-Since" with
  | None, None => Some fresh_page
  | _, _ => Some not_modified
  end.

(** An upstream that always answers with [r]. *)
Definition always (r : Response) (_ : list Request) (_ : Request)
  : option Response := Some r.

(** An upstream that says 304 whatever it is asked. *)
Definition always_not_modified : list Request -> Request -> option Response :=
  always not_modified.

(** Worlds: nothing cached, or one page cached for [url] without
    credential. *)
Definition empty_world (up : bool) : World :=
  {| online := up; heap := []; cache := ∅; trace := [] |}.

Definition world_with (up : bool) (cached : Response) : World :=
  {| online := up; heap := [cached]; cache := {[ (url, None) := 0%nat ]};
     trace := [] |}.

End Sample.

(** ** Vocabulary for the further properties *)

(** The diagnostics the two handlers write. *)
Definition online_diagnostics : list string :=
  ["ONLINE_MISS"; "ONLINE_HIT"; "RATE_LIMITED_MISS"; "RATE_LIMITED_HIT"].



(** Every key of the cache is bound to a response with status 200 that
    carries ETag or Last-Modified. *)
Definition cache_holds_cacheable (w : World) : Prop :=
  forall k l, cache w !! k = Some l ->
    exists r, heap w !! l = Some r /\ cacheable r.

(** How far a call has come in its dealings with the collaborators:
    nothing yet, the cache asked, the entry read, one request sent, two
    requests sent, the response stored. *)
Inductive phase : Type :=
| Idle | Asked | Read | SentOnce | SentTwice | Stored.

(** The moves a call makes, in order: at most one membership test, then
    at most one read of the entry, then at most two requests, then at
    most one store. *)
Definition next_phase (p : phase) (e : event) : option phase :=
  match p, e with
  | Idle, EvContains _ => Some Asked
  | Asked, EvGet _ => Some Read
  | (Idle | Asked | Read), EvSend _ => Some SentOnce
  | SentOnce, EvSend _ => Some SentTwice
  | (SentOnce | SentTwice), EvSet _ _ => Some Stored
  | _, _ => None
  end.

Fixpoint in_call_order (p : phase) (evs : list event) : bool :=
  match evs with
  | [] => true
  | e :: rest =>
      match next_phase p e with
      | Some p' => in_call_order p' rest
      | None => false
      end
  end.

(** The number of requests a call may still send from a phase. *)
Definition sends_left (p : phase) : nat :=
  match p with
  | Idle | Asked | Read => 2
  | SentOnce => 1
  | SentTwice | Stored => 0
  end.

Definition is_store (e : event) : bool :=
  match e with EvSet _ _ => true | _ => false end.

(** The request [online_request] sends first: the forwarded one for a
    method other than GET, the plain GET for a key the cache lacks, the
    conditional GET for a key bound to an object of the heap. *)
Definition first_request `{E : Externals} (method url : string)
    (auth data : option string) (url_params : option MultiDict) (w : World)
  : option Request :=
  if negb (String.eqb method "GET")
  then Some (forwarded_request method url auth data url_params)
  else match cache w !! cache_key url auth with
       | None => Some (plain_get url auth url_params)
       | Some c =>
           match heap w !! c with
           | Some cr => Some (conditional_get url auth url_params cr)
           | None => None
           end
       end.


(** The monitor flips the health flag; nothing else of the world moves. *)
Definition with_health (up : bool) (w : World) : World :=
  {| online := up; heap := heap w; cache := cache w; trace := trace w |}.

(** More of the sample environment: a query whose [per_page] is not a
    number, a cached page whose body is not JSON, and a cached full page
    whose only validator is its ETag. *)
Module Sample2.

Definition malformed_per_page : option MultiDict :=
  Some [("per_page", "many")].

Definition undecodable_page : Response :=
  Sample.page [("ETag", "v1")] "<html>Bad gateway</html>".

Definition full_page_etag_only : Response :=
  Sample.page [("ETag", "v1")] "[1,2]".

End Sample2.

(** * Properties *)

(** ** Strings and header mappings *)

Lemma starts_with_app (a b : string) :
  Str.starts_with a b = true <-> exists post, b = a +:+ post.
Proof.
  revert b. induction a as [|c a IH]; intros b; simpl.
  - split; [intros _; by exists b | done].
  - destruct b as [|d b].
    + split; [done | intros [post Hp]; discriminate].
    + rewrite andb_true_iff, Ascii.eqb_eq, IH.
      split.
      * intros [-> [post ->]]. by exists post.
      * intros [post Hp]. injection Hp as -> ->. split; [done | by exists post].
Qed.

Lemma contains_spec (needle hay : string) :
  Str.contains needle hay = true <->
  exists pre post, hay = pre +:+ needle +:+ post.
Proof.
  induction hay as [|c hay IH]; simpl.
  - rewrite orb_false_r, starts_with_app. split.
    + intros [post Hp]. by exists "", post.
    + intros [pre [post Hp]]. destruct pre; simpl in Hp; [by exists post | discriminate].
  - rewrite orb_true_iff, starts_with_app, IH. split.
    + intros [[post Hp] | [pre [post Hp]]].
      * by exists "", post.
      * exists (String c pre), post. simpl. by rewrite Hp.
    + intros [pre [post Hp]]. destruct pre as [|d pre]; simpl in Hp.
      * left. by exists post.
      * right. exists pre, post. by injection Hp.
Qed.

Lemma CI_get_set (k v : string) (d : CIDict) :
  CI.get k (CI.set k v d) = Some v.
Proof. unfold CI.get, CI.set. by rewrite lookup_insert_eq. Qed.

Lemma CI_get_set_ne (k k' v : string) (d : CIDict) :
  Str.lower k <> Str.lower k' -> CI.get k' (CI.set k v d) = CI.get k' d.
Proof. intros H. unfold CI.get, CI.set. by rewrite lookup_insert_ne. Qed.

Lemma CI_mem_get (k : string) (d : CIDict) :
  CI.mem k d = true <-> is_Some (CI.get k d).
Proof.
  unfold CI.mem, CI.get. rewrite bool_decide_eq_true, fmap_is_Some. done.
Qed.

(** ** Running computations *)

Lemma bind_Ok {A B} (m : M A) (f : A -> M B) w a w' :
  m w = Ok a w' -> bind m f w = f a w'.
Proof. intros H. unfold bind. by rewrite H. Qed.

Lemma bind_Raise {A B} (m : M A) (f : A -> M B) w e w' :
  m w = Raise e w' -> bind m f w = Raise e w'.
Proof. intros H. unfold bind. by rewrite H. Qed.

Lemma bind_ret {A B} (a : A) (f : A -> M B) w : bind (ret a) f w = f a w.
Proof. done. Qed.

Lemma bind_assoc {A B C} (m : M A) (f : A -> M B) (g : B -> M C) w :
  bind (bind m f) g w = bind m (fun a => bind (f a) g) w.
Proof. unfold bind. by destruct (m w). Qed.

(** Projections of a changed world reduce by computation. *)
Ltac wsimpl :=
  cbn [log push store bind_key looked_up_miss looked_up_hit answered tagged
       online heap cache trace world_of fst snd] in *.

Lemma sent_log_send rq w : sent (log (EvSend rq) w) = sent w ++ [rq].
Proof. unfold sent. wsimpl. by rewrite omap_app. Qed.

Lemma sent_log_cache e w :
  is_cache_event e = true -> sent (log e w) = sent w.
Proof.
  intros He. unfold sent. wsimpl. rewrite omap_app.
  destruct e; [done | | |]; simpl; by rewrite app_nil_r.
Qed.

Lemma sent_push r w : sent (push r w) = sent w.
Proof. done. Qed.

Lemma sent_store l r w : sent (store l r w) = sent w.
Proof. done. Qed.

Lemma sent_bind_key k l w : sent (bind_key k l w) = sent w.
Proof. done. Qed.

Lemma snoc_length {A} (l : list A) (x : A) : length (l ++ [x]) = S (length l).
Proof. rewrite length_app. simpl. lia. Qed.

Lemma snoc_lookup_new {A} (l : list A) (x : A) :
  (l ++ [x]) !! length l = Some x.
Proof. by apply list_lookup_middle. Qed.

Lemma snoc_lookup_old {A} (l : list A) (x y : A) (i : nat) :
  l !! i = Some y -> (l ++ [x]) !! i = Some y.
Proof. apply lookup_app_l_Some. Qed.

Lemma snoc_insert_new {A} (l : list A) (x y : A) :
  <[length l := y]> (l ++ [x]) = l ++ [y].
Proof.
  rewrite insert_app_r_alt by lia. by rewrite Nat.sub_diag.
Qed.

Lemma snoc_insert_lookup {A} (l : list A) (x y : A) :
  <[length l := y]> (l ++ [x]) !! length l = Some y.
Proof. rewrite snoc_insert_new. apply snoc_lookup_new. Qed.

(** Looks an object up in a heap that grew since the object was known. *)
Ltac hsolve :=
  wsimpl; solve [eauto using snoc_lookup_new, snoc_lookup_old].

(** Splits a conjunction into its conjuncts, and nothing else. *)
Ltac conjs := repeat match goal with |- _ /\ _ => split end.

(** Steps one [bind] whose first computation returns, by [tac]. *)
Ltac mnorm :=
  repeat (progress cbv beta iota || rewrite bind_assoc || rewrite bind_ret).
Ltac step_by tac := mnorm; erewrite bind_Ok by tac; cbv beta; mnorm.
Ltac step H := mnorm; rewrite (bind_Ok _ _ _ _ _ H); cbv beta; mnorm.

Section Primitives.

Context {E : Externals}.
Variable upstream : list Request -> Request -> option Response.

Lemma requests_request_Ok rq r w :
  upstream (sent w) rq = Some r ->
  requests_request upstream rq w =
    Ok (length (heap w)) (push r (log (EvSend rq) w)).
Proof. intros H. unfold requests_request. by rewrite H. Qed.

Lemma requests_request_Raise rq w :
  upstream (sent w) rq = None ->
  requests_request upstream rq w = Raise RequestException (log (EvSend rq) w).
Proof. intros H. unfold requests_request. by rewrite H. Qed.

Lemma deref_Ok l r w : heap w !! l = Some r -> deref l w = Ok r w.
Proof. intros H. unfold deref. by rewrite H. Qed.

Lemma set_header_Ok l k v r w :
  heap w !! l = Some r ->
  set_header l k v w = Ok tt (store l (with_header k v r) w).
Proof. intros H. unfold set_header. by rewrite H. Qed.

Lemma cache_contains_hit k l w :
  cache w !! k = Some l ->
  cache_contains k w = Ok true (log (EvContains k) w).
Proof.
  intros H. unfold cache_contains. by rewrite H, bool_decide_eq_true_2.
Qed.

Lemma cache_contains_miss k w :
  cache w !! k = None ->
  cache_contains k w = Ok false (log (EvContains k) w).
Proof.
  intros H. unfold cache_contains. rewrite H, bool_decide_eq_false_2; [done|].
  by intros [? ?].
Qed.

Lemma cache_get_Ok k l w :
  cache w !! k = Some l -> cache_get k w = Ok l (log (EvGet k) w).
Proof. intros H. unfold cache_get. by rewrite H. Qed.

(** *** The page size in force *)

Lemma get_elements_per_page_eq url_params w :
  _get_elements_per_page url_params w =
    match requested_per_page url_params with
    | Some s => match py_int s with
                | Some n => Ok (Some n) w
                | None => Raise ValueError w
                end
    | None => Ok None w
    end.
Proof.
  unfold _get_elements_per_page, requested_per_page.
  destruct url_params as [d|]; [|done].
  destruct (multidict_get "per_page" d) as [s|]; [|done].
  unfold bind, of_option. by destruct (py_int s).
Qed.

Lemma page_size_run url_params n w :
  page_size_is url_params n ->
  exists pp,
    _get_elements_per_page url_params w = Ok pp w /\
    page_size pp (initial_parameters url_params) =
      (n, outgoing_parameters url_params).
Proof.
  unfold page_size_is, outgoing_parameters. rewrite get_elements_per_page_eq.
  destruct (requested_per_page url_params) as [s|].
  - intros ->. by exists (Some n).
  - intros ->. by exists None.
Qed.

Lemma page_size_malformed url_params s w :
  requested_per_page url_params = Some s -> py_int s = None ->
  _get_elements_per_page url_params w = Raise ValueError w.
Proof. intros H1 H2. by rewrite get_elements_per_page_eq, H1, H2. Qed.

End Primitives.

Section Tests.

Context {E : Externals}.

Lemma cache_response_run l k r w :
  heap w !! l = Some r ->
  _cache_response l k w = Ok tt (cached_if_cacheable k l r w).
Proof.
  intros H. unfold _cache_response, cached_if_cacheable.
  step (deref_Ok _ _ _ H). fold (cacheableb r). by destruct (cacheableb r).
Qed.

Lemma should_serve_from_cache_run l r w :
  heap w !! l = Some r ->
  _should_serve_from_cache l w = Ok (rate_limitedb r) w.
Proof. intros H. unfold _should_serve_from_cache. by step (deref_Ok _ _ _ H). Qed.

Lemma cacheableb_spec r : cacheableb r = true <-> cacheable r.
Proof.
  unfold cacheableb, cacheable.
  by rewrite andb_true_iff, orb_true_iff, Z.eqb_eq, !CI_mem_get.
Qed.

Lemma rate_limitedb_spec r :
  rate_limitedb r = true <-> status_code r = 403 /\ has_rate_limit_phrase r.
Proof.
  unfold rate_limitedb, has_rate_limit_phrase.
  rewrite andb_true_iff, Z.eqb_eq, existsb_exists.
  split; intros [Hs Hp]; (split; [done|]).
  - destruct Hp as (m & Hin & Hc). apply contains_spec in Hc as (pre & post & Hc).
    exists m, pre, post. by rewrite list_elem_of_In.
  - destruct Hp as (m & pre & post & Hin & Hc). exists m.
    rewrite <- list_elem_of_In, contains_spec. eauto.
Qed.

Lemma response_json_len l r w :
  heap w !! l = Some r ->
  forall len, element_count r = Some len ->
  exists body,
    response_json l w = Ok body w /\ py_len body = Some len.
Proof.
  intros H len. unfold element_count, response_json.
  step (deref_Ok _ _ _ H).
  destruct (json_loads (content r)) as [body|]; [|done].
  intros Hl. by exists body.
Qed.

End Tests.

(** ** The paths of [online_request] *)

(** Lines 77-91, when the page size can be read. *)
Ltac prelude Hps :=
  unfold online_request;
  let pp := fresh "pp" in
  let Hpp := fresh "Hpp" in
  let Hpg := fresh "Hpg" in
  match goal with
  | |- context [bind (_get_elements_per_page ?u) _ ?w] =>
      destruct (page_size_run u _ w Hps) as (pp & Hpp & Hpg)
  end;
  step Hpp; rewrite Hpg;
  match goal with
  | |- context [authorize ?a ∅] => rewrite (surjective_pairing (authorize a ∅))
  end.

Section OnlinePaths.

Context {E : Externals}.
Variable upstream : list Request -> Request -> option Response.

Lemma cacheableb_tagged v r :
  cacheableb (with_header "X-Cache" v r) = cacheableb r.
Proof.
  unfold cacheableb, with_header, CI.mem, CI.set. cbn [status_code headers].
  by rewrite !lookup_insert_ne.
Qed.

Lemma sent_answered rq r w : sent (answered rq r w) = sent w ++ [rq].
Proof. unfold answered. apply sent_log_send. Qed.

Lemma sent_looked_up_hit k w : sent (looked_up_hit k w) = sent w.
Proof. unfold looked_up_hit. by rewrite !sent_log_cache. Qed.

Lemma sent_looked_up_miss k w : sent (looked_up_miss k w) = sent w.
Proof. unfold looked_up_miss. by rewrite !sent_log_cache. Qed.


(** Lines 109-125 when the key is absent and the upstream answers. *)
Ltac lookup_miss Hc Hup :=
  cbn [String.eqb Ascii.eqb Bool.eqb negb];
  step (cache_contains_miss _ _ Hc);
  step_by ltac:(apply requests_request_Ok; rewrite sent_log_cache by done;
                exact Hup);
  step_by ltac:(apply deref_Ok; hsolve).

(** Lines 109-125 when the key is bound to [c] and the upstream answers. *)
Ltac lookup_hit Hc Hcr Hup :=
  cbn [String.eqb Ascii.eqb Bool.eqb negb];
  step (cache_contains_hit _ _ _ Hc);
  step_by ltac:(apply cache_get_Ok; wsimpl; exact Hc);
  step_by ltac:(apply deref_Ok; wsimpl; exact Hcr);
  step_by ltac:(apply requests_request_Ok; rewrite !sent_log_cache by done;
                exact Hup);
  step_by ltac:(apply deref_Ok; hsolve).

Lemma run_absent_304 url auth data url_params n r w :
  page_size_is url_params n ->
  cache w !! cache_key url auth = None ->
  upstream (sent w) (plain_get url auth url_params) = Some r ->
  status_code r = 304 ->
  online_request upstream "GET" url auth data url_params w =
    Raise AttributeError
      (answered (plain_get url auth url_params) r
         (looked_up_miss (cache_key url auth) w)).
Proof.
  intros Hps Hc Hup Hst. prelude Hps. lookup_miss Hc Hup.
  by rewrite Hst.
Qed.


Lemma run_absent_miss url auth data url_params n r w :
  page_size_is url_params n ->
  cache w !! cache_key url auth = None ->
  upstream (sent w) (plain_get url auth url_params) = Some r ->
  status_code r <> 304 ->
  rate_limitedb r = false ->
  online_request upstream "GET" url auth data url_params w =
    Ok (length (heap w))
       (cached_if_cacheable (cache_key url auth) (length (heap w)) r
          (tagged (length (heap w)) "ONLINE_MISS" r
             (answered (plain_get url auth url_params) r
                (looked_up_miss (cache_key url auth) w)))).
Proof.
  intros Hps Hc Hup Hst Hrl. prelude Hps. lookup_miss Hc Hup.
  apply Z.eqb_neq in Hst. rewrite Hst.
  step_by ltac:(apply should_serve_from_cache_run; hsolve). rewrite Hrl.
  step_by ltac:(apply set_header_Ok; hsolve).
  step_by ltac:(apply (cache_response_run _ _ (with_header "X-Cache" "ONLINE_MISS" r));
                wsimpl; apply snoc_insert_lookup).
  unfold cached_if_cacheable. by rewrite cacheableb_tagged.
Qed.

Lemma dict_pop_Ok k v (d : gmap string string) w :
  d !! k = Some v -> dict_pop k d w = Ok (delete k d) w.
Proof. intros H. unfold dict_pop. by rewrite H. Qed.

Lemma dict_pop_Raise k (d : gmap string string) w :
  d !! k = None -> dict_pop k d w = Raise KeyError w.
Proof. intros H. unfold dict_pop. by rewrite H. Qed.

Lemma conditional_headers_etag cr (h : gmap string string) etag :
  CI.get "ETag" (headers cr) = Some etag ->
  conditional_headers cr h !! "If-None-Match" = Some etag.
Proof.
  intros H. unfold conditional_headers. rewrite H.
  destruct (CI.get "Last-Modified" (headers cr)).
  - rewrite lookup_insert_ne by done. apply lookup_insert_eq.
  - apply lookup_insert_eq.
Qed.

Lemma conditional_headers_no_etag cr (h : gmap string string) :
  CI.get "ETag" (headers cr) = None ->
  conditional_headers cr h !! "If-None-Match" = h !! "If-None-Match".
Proof.
  intros H. unfold conditional_headers. rewrite H.
  destruct (CI.get "Last-Modified" (headers cr)); [|done].
  by rewrite lookup_insert_ne.
Qed.

Lemma conditional_headers_last_modified cr (h : gmap string string) lm :
  CI.get "Last-Modified" (headers cr) = Some lm ->
  conditional_headers cr h !! "If-Modified-Since" = Some lm.
Proof.
  intros H. unfold conditional_headers. rewrite H. apply lookup_insert_eq.
Qed.

Lemma authorize_no_validator auth :
  (authorize auth ∅).2 !! "If-None-Match" = None.
Proof. by destruct auth. Qed.

(** The test of lines 128-129, once the cached body has been counted. *)
Ltac count_elements Hcr Hlen :=
  let body := fresh "body" in
  let Hj := fresh "Hj" in
  let Hl := fresh "Hl" in
  cbn [of_option]; mnorm;
  match goal with
  | |- context [bind (response_json ?c) _ ?w] =>
      destruct (response_json_len c _ w ltac:(hsolve) _ Hlen)
        as (body & Hj & Hl)
  end;
  step Hj; rewrite Hl; cbn [of_option]; mnorm;
  step_by ltac:(apply deref_Ok; hsolve).

Lemma run_cached_hit url auth data url_params n c cr len r w :
  page_size_is url_params n ->
  cache w !! cache_key url auth = Some c ->
  heap w !! c = Some cr ->
  upstream (sent w) (conditional_get url auth url_params cr) = Some r ->
  status_code r = 304 ->
  element_count cr = Some len ->
  full_last_page n len cr = false ->
  online_request upstream "GET" url auth data url_params w =
    Ok c (tagged c "ONLINE_HIT" cr
            (answered (conditional_get url auth url_params cr) r
               (looked_up_hit (cache_key url auth) w))).
Proof.
  intros Hps Hc Hcr Hup Hst Hlen Hfull. prelude Hps. lookup_hit Hc Hcr Hup.
  rewrite Hst. cbn [Z.eqb Pos.eqb].
  count_elements Hcr Hlen.
  fold (full_last_page n len cr). rewrite Hfull.
  step_by ltac:(apply set_header_Ok; hsolve).
  done.
Qed.

Lemma run_cached_refetch url auth data url_params n c cr len r r2 w :
  page_size_is url_params n ->
  cache w !! cache_key url auth = Some c ->
  heap w !! c = Some cr ->
  upstream (sent w) (conditional_get url auth url_params cr) = Some r ->
  status_code r = 304 ->
  element_count cr = Some len ->
  full_last_page n len cr = true ->
  is_Some (CI.get "ETag" (headers cr)) ->
  upstream (sent w ++ [conditional_get url auth url_params cr])
           (refetch_get url auth url_params cr) = Some r2 ->
  online_request upstream "GET" url auth data url_params w =
    Ok (S (length (heap w)))
       (cached_if_cacheable (cache_key url auth) (S (length (heap w))) r2
          (tagged (S (length (heap w))) "ONLINE_MISS" r2
             (answered (refetch_get url auth url_params cr) r2
                (answered (conditional_get url auth url_params cr) r
                   (looked_up_hit (cache_key url auth) w))))).
Proof.
  intros Hps Hc Hcr Hup Hst Hlen Hfull [etag Het] Hup2.
  prelude Hps. lookup_hit Hc Hcr Hup.
  rewrite Hst. cbn [Z.eqb Pos.eqb].
  count_elements Hcr Hlen.
  fold (full_last_page n len cr). rewrite Hfull.
  step_by ltac:(apply (dict_pop_Ok _ etag), conditional_headers_etag, Het).
  step_by ltac:(apply requests_request_Ok;
                rewrite sent_push, sent_log_send, !sent_log_cache by done;
                exact Hup2).
  step_by ltac:(apply set_header_Ok; hsolve).
  step_by ltac:(apply (cache_response_run _ _ (with_header "X-Cache" "ONLINE_MISS" r2));
                wsimpl; apply snoc_insert_lookup).
  unfold cached_if_cacheable, ret. rewrite cacheableb_tagged.
  wsimpl. by rewrite !snoc_length.
Qed.

Lemma run_cached_refetch_no_etag url auth data url_params n c cr len r w :
  page_size_is url_params n ->
  cache w !! cache_key url auth = Some c ->
  heap w !! c = Some cr ->
  upstream (sent w) (conditional_get url auth url_params cr) = Some r ->
  status_code r = 304 ->
  element_count cr = Some len ->
  full_last_page n len cr = true ->
  CI.get "ETag" (headers cr) = None ->
  online_request upstream "GET" url auth data url_params w =
    Raise KeyError
       (answered (conditional_get url auth url_params cr) r
          (looked_up_hit (cache_key url auth) w)).
Proof.
  intros Hps Hc Hcr Hup Hst Hlen Hfull Het.
  prelude Hps. lookup_hit Hc Hcr Hup.
  rewrite Hst. cbn [Z.eqb Pos.eqb].
  count_elements Hcr Hlen.
  fold (full_last_page n len cr). rewrite Hfull.
  erewrite bind_Raise; [done|].
  apply dict_pop_Raise.
  by rewrite conditional_headers_no_etag, authorize_no_validator.
Qed.

Lemma run_cached_rate_limited url auth data url_params n c cr r w :
  page_size_is url_params n ->
  cache w !! cache_key url auth = Some c ->
  heap w !! c = Some cr ->
  upstream (sent w) (conditional_get url auth url_params cr) = Some r ->
  rate_limitedb r = true ->
  online_request upstream "GET" url auth data url_params w =
    Ok c (tagged c "RATE_LIMITED_HIT" cr
            (answered (conditional_get url auth url_params cr) r
               (looked_up_hit (cache_key url auth) w))).
Proof.
  intros Hps Hc Hcr Hup Hrl. prelude Hps. lookup_hit Hc Hcr Hup.
  assert ((status_code r =? 304) = false) as ->.
  { apply andb_true_iff in Hrl as [Hs _]. apply Z.eqb_eq in Hs. by rewrite Hs. }
  step_by ltac:(apply should_serve_from_cache_run; hsolve). rewrite Hrl.
  step_by ltac:(apply set_header_Ok; hsolve).
  done.
Qed.

Lemma run_cached_miss url auth data url_params n c cr r w :
  page_size_is url_params n ->
  cache w !! cache_key url auth = Some c ->
  heap w !! c = Some cr ->
  upstream (sent w) (conditional_get url auth url_params cr) = Some r ->
  status_code r <> 304 ->
  rate_limitedb r = false ->
  online_request upstream "GET" url auth data url_params w =
    Ok (length (heap w))
       (cached_if_cacheable (cache_key url auth) (length (heap w)) r
          (tagged (length (heap w)) "ONLINE_MISS" r
             (answered (conditional_get url auth url_params cr) r
                (looked_up_hit (cache_key url auth) w)))).
Proof.
  intros Hps Hc Hcr Hup Hst Hrl. prelude Hps. lookup_hit Hc Hcr Hup.
  apply Z.eqb_neq in Hst. rewrite Hst.
  step_by ltac:(apply should_serve_from_cache_run; hsolve). rewrite Hrl.
  step_by ltac:(apply set_header_Ok; hsolve).
  step_by ltac:(apply (cache_response_run _ _ (with_header "X-Cache" "ONLINE_MISS" r));
                wsimpl; apply snoc_insert_lookup).
  unfold cached_if_cacheable. by rewrite cacheableb_tagged.
Qed.

(** What line 131 leaves in the request that is sent again. *)
Lemma refetch_get_keeps_last_modified url auth url_params cr lm :
  CI.get "Last-Modified" (headers cr) = Some lm ->
  req_headers (refetch_get url auth url_params cr) !! "If-Modified-Since"
    = Some lm.
Proof.
  intros H. unfold refetch_get. cbn [req_headers].
  rewrite lookup_delete_ne by done.
  by apply conditional_headers_last_modified.
Qed.

(** A [per_page] that [int] rejects ends the call before anything else. *)
Lemma online_request_malformed_page_size method url auth data url_params s w :
  requested_per_page url_params = Some s ->
  py_int s = None ->
  online_request upstream method url auth data url_params w
    = Raise ValueError w.
Proof.
  intros Hs Hi. unfold online_request.
  by rewrite (bind_Raise _ _ _ _ _ (page_size_malformed _ _ _ Hs Hi)).
Qed.

End OnlinePaths.

(** ** The paths of [offline_request] *)

Section OfflinePaths.

Context {E : Externals}.

Lemma run_offline_non_get method url auth error_code error_message w :
  method <> "GET" ->
  offline_request method url auth error_code error_message w =
    Ok (length (heap w)) (push (error_response error_code error_message) w).
Proof.
  intros Hm. unfold offline_request.
  rewrite (surjective_pairing (authorize auth ∅)).
  apply String.eqb_neq in Hm. by rewrite Hm.
Qed.

Lemma run_offline_miss url auth error_code error_message w :
  cache w !! cache_key url auth = None ->
  offline_request "GET" url auth error_code error_message w =
    Ok (length (heap w))
       (push (error_response error_code error_message)
             (looked_up_miss (cache_key url auth) w)).
Proof.
  intros Hc. unfold offline_request.
  rewrite (surjective_pairing (authorize auth ∅)).
  cbn [String.eqb Ascii.eqb Bool.eqb negb].
  by step (cache_contains_miss _ _ Hc).
Qed.

Lemma run_offline_hit url auth error_code error_message c cr w :
  cache w !! cache_key url auth = Some c ->
  heap w !! c = Some cr ->
  offline_request "GET" url auth error_code error_message w =
    Ok c (tagged c "OFFLINE_HIT" cr (looked_up_hit (cache_key url auth) w)).
Proof.
  intros Hc Hcr. unfold offline_request.
  rewrite (surjective_pairing (authorize auth ∅)).
  cbn [String.eqb Ascii.eqb Bool.eqb negb].
  step (cache_contains_hit _ _ _ Hc).
  step_by ltac:(apply cache_get_Ok; wsimpl; exact Hc).
  step_by ltac:(apply set_header_Ok; hsolve).
  done.
Qed.

End OfflinePaths.

(** ** What a call can do to the collaborators *)

Section Frames.

Context {E : Externals}.
Variable upstream : list Request -> Request -> option Response.

(** Unfolds a handler down to the world changes. *)
Ltac unfold_all :=
  unfold conditional_request, online_request, offline_request,
    _get_elements_per_page, _cache_response, _should_serve_from_cache,
    response_json, dict_pop, of_option,
    requests_request, alloc, deref, set_header, cache_contains, cache_get,
    cache_set, github_status_online, bind, ret, raise.

Lemma offline_request_events method url auth error_code error_message w :
  exists evs,
    trace (world_of (offline_request method url auth error_code
                       error_message w)) = trace w ++ evs /\
    forallb is_cache_event evs = true.
Proof.
  unfold_all. rewrite (surjective_pairing (authorize auth ∅)).
  repeat (case_match; simplify_eq); wsimpl; rewrite <- ?app_assoc.
  all: try (eexists; split; [reflexivity | done]).
  all: try (exists []; split; [by rewrite app_nil_r | done]).
Qed.


Lemma online_cached_no_attribute_error url auth data url_params c w w' :
  cache w !! cache_key url auth = Some c ->
  online_request upstream "GET" url auth data url_params w
    <> Raise AttributeError w'.
Proof.
  intros Hc. unfold cache_key in Hc. unfold online_request.
  unfold bind at 1. rewrite get_elements_per_page_eq.
  destruct (requested_per_page url_params) as [s|];
    [destruct (py_int s); [|done] |].
  all: destruct (page_size _ _) as [ppe params].
  all: destruct (authorize auth ∅) as [sha hdrs]; wsimpl.
  all: cbn [String.eqb Ascii.eqb Bool.eqb negb].
  all: unfold_all; rewrite Hc, bool_decide_eq_true_2 by eauto.
  all: repeat (case_match; simplify_eq; wsimpl; try done).
Qed.

Lemma online_request_stores method url auth data url_params w res :
  res = online_request upstream method url auth data url_params w ->
  exists evs,
    trace (world_of res) = trace w ++ evs /\
    forall k l, EvSet k l ∈ evs ->
      k = cache_key url auth /\
      exists r, heap (world_of res) !! l = Some r /\ cacheable r.
Proof.
  unfold cache_key, online_request.
  unfold bind at 1. rewrite get_elements_per_page_eq.
  destruct (requested_per_page url_params) as [s|];
    [destruct (py_int s) |].
  all: try destruct (page_size _ _) as [ppe params].
  all: destruct (authorize auth ∅) as [sha hdrs]; wsimpl.
  all: unfold_all; intros Hres.
  all: repeat (case_match; simplify_eq; wsimpl).
  all: simplify_eq; wsimpl; rewrite <- ?app_assoc.
  all: try (exists []; split; [by rewrite app_nil_r | set_solver]).
  all: eexists; (split; [reflexivity|]).
  all: intros k0 l0 Hin; cbn [app] in Hin.
  all: repeat (apply elem_of_cons in Hin as [Hin|Hin]; simplify_eq).
  all: try by apply elem_of_nil in Hin.
  all: split; [done|].
  all: rewrite <- ?app_assoc in *; eexists; split; [eassumption|].
  all: by apply cacheableb_spec.
Qed.

Lemma conditional_request_offline method url auth data url_params w :
  online w = false ->
  conditional_request upstream method url auth data url_params w =
    offline_request method url auth 504 default_error_message w.
Proof.
  intros H. unfold conditional_request, bind, github_status_online.
  by rewrite H.
Qed.

Lemma conditional_request_online method url auth data url_params w :
  online w = true ->
  conditional_request upstream method url auth data url_params w =
    online_request upstream method url auth data url_params w.
Proof.
  intros H. unfold conditional_request, bind, github_status_online.
  by rewrite H.
Qed.

Lemma cache_events_not_sent evs :
  forallb is_cache_event evs = true -> omap is_send evs = [].
Proof.
  induction evs as [|e evs IH]; [done|]. cbn [forallb].
  rewrite andb_true_iff. intros [He Hevs]. destruct e; [done | | |]; by apply IH.
Qed.

End Frames.

(** ** Responses that carry a diagnostic *)

Lemma serves_with_header v r : serves v r (with_header "X-Cache" v r).
Proof.
  unfold serves, x_cache. cbn [with_header status_code content headers].
  conjs; [done | done | apply CI_get_set |].
  intros h Hh. apply CI_get_set_ne. congruence.
Qed.

Lemma heap_tagged_old c v cr rq r0 w :
  heap w !! c = Some cr ->
  heap (tagged c v cr (answered rq r0 w)) !! c
    = Some (with_header "X-Cache" v cr).
Proof.
  intros H. wsimpl. apply list_lookup_insert_eq.
  rewrite snoc_length. apply lookup_lt_Some in H. lia.
Qed.

Lemma heap_tagged_here c v cr w :
  heap w !! c = Some cr ->
  heap (tagged c v cr w) !! c = Some (with_header "X-Cache" v cr).
Proof.
  intros H. wsimpl. apply list_lookup_insert_eq. by apply lookup_lt_Some in H.
Qed.

(** * The claims *)

(** C1 fails on the code. Line 131 pops [If-None-Match] and nothing
    else. With a cached full page that carries both validators, the
    request sent again still carries [If-Modified-Since]; an upstream
    that honours it answers 304 again, and that 304 is what the caller
    gets, tagged ONLINE_MISS, while the cache keeps the old page. With a
    cached full page that carries Last-Modified only, the pop raises
    KeyError and nothing is sent again. *)
Lemma refetch_keeps_if_modified_since :
  (exists w' out rq1 rq2,
     online_request (E := Sample.externals) Sample.revalidating "GET"
       Sample.url None None Sample.two_per_page
       (Sample.world_with true Sample.full_page) = Ok 2%nat w' /\
     sent w' = [rq1; rq2] /\
     req_headers rq2 !! "If-None-Match" = None /\
     req_headers rq2 !! "If-Modified-Since"
       = Some "Mon, 02 Mar 2020 10:00:00 GMT" /\
     heap w' !! 2%nat = Some out /\
     status_code out = 304 /\
     x_cache out = Some "ONLINE_MISS" /\
     cache w' !! (Sample.url, None) = Some 0%nat) /\
  (exists w',
     online_request (E := Sample.externals) Sample.revalidating "GET"
       Sample.url None None Sample.two_per_page
       (Sample.world_with true Sample.full_page_last_modified_only)
       = Raise KeyError w' /\
     length (sent w') = 1%nat).
Proof.
  split.
  - exists (world_of (online_request (E := Sample.externals)
                        Sample.revalidating "GET" Sample.url None None
                        Sample.two_per_page
                        (Sample.world_with true Sample.full_page))),
           (with_header "X-Cache" "ONLINE_MISS" Sample.not_modified),
           (conditional_get (E := Sample.externals) Sample.url None
              Sample.two_per_page Sample.full_page),
           (refetch_get (E := Sample.externals) Sample.url None
              Sample.two_per_page Sample.full_page).
    conjs; vm_compute; reflexivity.
  - exists (world_of (online_request (E := Sample.externals)
                        Sample.revalidating "GET" Sample.url None None
                        Sample.two_per_page
                        (Sample.world_with true
                           Sample.full_page_last_modified_only))).
    conjs; vm_compute; reflexivity.
Qed.

(** C2 as stated fails: a cached page can be full and carry no link to a
    next page and still be served as a hit, because line 129 asks whether
    the cached response carries any link at all. Here the cached page has
    two elements for a page size of two and a [Link] header whose only
    entry is [prev]; the upstream answers 304. *)
Lemma full_page_with_prev_link_is_a_hit :
  page_size_is (E := Sample.externals) Sample.two_per_page 2 /\
  element_count (E := Sample.externals) Sample.full_page_with_prev
    = Some 2%nat /\
  links_of (E := Sample.externals) Sample.full_page_with_prev !! Some "next"
    = None /\
  Sample.revalidating []
    (conditional_get (E := Sample.externals) Sample.url None
       Sample.two_per_page Sample.full_page_with_prev)
    = Some Sample.not_modified /\
  exists w' out,
    online_request (E := Sample.externals) Sample.revalidating "GET"
      Sample.url None None Sample.two_per_page
      (Sample.world_with true Sample.full_page_with_prev) = Ok 0%nat w' /\
    heap w' !! 0%nat = Some out /\
    x_cache out = Some "ONLINE_HIT" /\
    length (sent w') = 1%nat.
Proof.
  conjs; try (vm_compute; reflexivity).
  exists (world_of (online_request (E := Sample.externals)
                      Sample.revalidating "GET" Sample.url None None
                      Sample.two_per_page
                      (Sample.world_with true Sample.full_page_with_prev))),
         (with_header "X-Cache" "ONLINE_HIT" Sample.full_page_with_prev).
  conjs; vm_compute; reflexivity.
Qed.

(** C2, amended. For a GET whose key is cached and which the upstream
    answers with 304, the stale-page re-fetch is made exactly when the
    cached body has as many elements as the effective page size and the
    cached response carries no link of any relation (its [links] mapping
    is empty). Then, for a cached response that carries an ETag, the
    request is sent again without [If-None-Match] and the new response
    comes back tagged ONLINE_MISS; otherwise the cached object comes back
    tagged ONLINE_HIT after the one conditional request. The effective
    page size is the integer read from the query's [per_page] when the
    query has one, and the configured default when it has none. *)
Theorem stale_page_refetch_iff_full_and_no_links `{E : Externals}
    (upstream : list Request -> Request -> option Response)
    (url : string) (auth data : option string)
    (url_params : option MultiDict) (n : Z) (c : nat) (cr : Response)
    (len : nat) (r : Response) (w : World) :
  page_size_is url_params n ->
  cache w !! cache_key url auth = Some c ->
  heap w !! c = Some cr ->
  element_count cr = Some len ->
  upstream (sent w) (conditional_get url auth url_params cr) = Some r ->
  status_code r = 304 ->
  (exists pp,
     _get_elements_per_page url_params w = Ok pp w /\
     (page_size pp (initial_parameters url_params)).1 = n /\
     match requested_per_page url_params with
     | Some s => py_int s = Some n
     | None => n = PER_PAGE_ELEMENTS
     end) /\
  (Z.of_nat len = n /\ links_of cr = ∅ ->
   forall r2,
     is_Some (CI.get "ETag" (headers cr)) ->
     upstream (sent w ++ [conditional_get url auth url_params cr])
              (refetch_get url auth url_params cr) = Some r2 ->
     exists w' out,
       online_request upstream "GET" url auth data url_params w
         = Ok (S (length (heap w))) w' /\
       heap w' !! S (length (heap w)) = Some out /\
       serves "ONLINE_MISS" r2 out /\
       sent w' = sent w ++ [conditional_get url auth url_params cr;
                            refetch_get url auth url_params cr]) /\
  (~ (Z.of_nat len = n /\ links_of cr = ∅) ->
   exists w' out,
     online_request upstream "GET" url auth data url_params w = Ok c w' /\
     heap w' !! c = Some out /\
     serves "ONLINE_HIT" cr out /\
     sent w' = sent w ++ [conditional_get url auth url_params cr]).
Proof.
  intros Hps Hc Hcr Hlen Hup Hst.
  assert (full_last_page n len cr = true <->
          Z.of_nat len = n /\ links_of cr = ∅) as Hfull.
  { unfold full_last_page.
    by rewrite andb_true_iff, Z.eqb_eq, bool_decide_eq_true. }
  split; [|split].
  - destruct (page_size_run url_params n w Hps) as (pp & Hpp & Hpg).
    exists pp. split; [done|]. split; [by rewrite Hpg | exact Hps].
  - intros Hyes r2 Het Hup2. apply Hfull in Hyes.
    eexists _, _. split; [by eapply run_cached_refetch|].
    unfold cached_if_cacheable.
    assert (forall w0 : World,
              heap (if cacheableb r2
                    then bind_key (cache_key url auth) (S (length (heap w)))
                           (log (EvSet (cache_key url auth)
                                   (S (length (heap w)))) w0)
                    else w0) = heap w0 /\
              sent (if cacheableb r2
                    then bind_key (cache_key url auth) (S (length (heap w)))
                           (log (EvSet (cache_key url auth)
                                   (S (length (heap w)))) w0)
                    else w0) = sent w0) as Hsame.
    { intros w0. destruct (cacheableb r2); [|done].
      split; [done|]. by rewrite sent_bind_key, sent_log_cache. }
    rewrite (proj1 (Hsame _)), (proj2 (Hsame _)).
    split.
    { wsimpl. rewrite <- (snoc_length (heap w) r). apply snoc_insert_lookup. }
    split; [apply serves_with_header|].
    unfold tagged.
    rewrite sent_store, !sent_answered, sent_looked_up_hit.
    by rewrite <- app_assoc.
  - intros Hno.
    assert (full_last_page n len cr = false) as Hf.
    { apply not_true_is_false. by rewrite Hfull. }
    eexists _, _. split; [by eapply run_cached_hit|].
    split; [by apply heap_tagged_old|].
    split; [apply serves_with_header|].
    unfold tagged. by rewrite sent_store, sent_answered, sent_looked_up_hit.
Qed.

Lemma stale_page_refetch_iff_full_and_no_links_witness :
  (exists w' out,
     online_request (E := Sample.externals) Sample.revalidating "GET"
       Sample.url None None Sample.two_per_page
       (Sample.world_with true Sample.full_page) = Ok 2%nat w' /\
     heap w' !! 2%nat = Some out /\
     serves "ONLINE_MISS" Sample.not_modified out /\
     length (sent w') = 2%nat) /\
  (exists w' out,
     online_request (E := Sample.externals) Sample.revalidating "GET"
       Sample.url None None Sample.two_per_page
       (Sample.world_with true Sample.full_page_with_prev) = Ok 0%nat w' /\
     heap w' !! 0%nat = Some out /\
     serves "ONLINE_HIT" Sample.full_page_with_prev out /\
     length (sent w') = 1%nat).
Proof.
  split.
  - destruct (stale_page_refetch_iff_full_and_no_links
                (E := Sample.externals) Sample.revalidating Sample.url None
                None Sample.two_per_page 2 0%nat Sample.full_page 2%nat
                Sample.not_modified (Sample.world_with true Sample.full_page))
      as (_ & Hyes & _);
      [reflexivity | vm_compute; reflexivity | reflexivity | reflexivity
      | vm_compute; reflexivity | reflexivity |].
    destruct (Hyes (conj eq_refl eq_refl) Sample.not_modified)
      as (w' & out & Hrun & Hout & Hserves & Hsent).
    + exists "v1". vm_compute; reflexivity.
    + vm_compute; reflexivity.
    + exists w', out. rewrite Hsent. auto.
  - destruct (stale_page_refetch_iff_full_and_no_links
                (E := Sample.externals) Sample.revalidating Sample.url None
                None Sample.two_per_page 2 0%nat Sample.full_page_with_prev
                2%nat Sample.not_modified
                (Sample.world_with true Sample.full_page_with_prev))
      as (_ & _ & Hno);
      [reflexivity | vm_compute; reflexivity | reflexivity | reflexivity
      | vm_compute; reflexivity | reflexivity |].
    destruct Hno as (w' & out & Hrun & Hout & Hserves & Hsent).
    + intros [_ Hl].
      apply (f_equal (fun m => bool_decide (is_Some (m !! Some "prev")))) in Hl.
      vm_compute in Hl. discriminate Hl.
    + exists w', out. rewrite Hsent. auto.
Defined.

(** C3. A GET whose key is cached, whose cached body has fewer elements
    than the effective page size, and which the upstream answers with 304,
    returns the cached object itself, tagged ONLINE_HIT, with the status
    and body it was stored with; the conditional request is the only
    request sent (no re-fetch) and the cache keeps its bindings. *)
Theorem online_304_short_page_is_hit `{E : Externals}
    (upstream : list Request -> Request -> option Response)
    (url : string) (auth data : option string)
    (url_params : option MultiDict) (n : Z) (c : nat) (cr : Response)
    (len : nat) (r : Response) (w : World) :
  page_size_is url_params n ->
  cache w !! cache_key url auth = Some c ->
  heap w !! c = Some cr ->
  element_count cr = Some len ->
  Z.of_nat len < n ->
  upstream (sent w) (conditional_get url auth url_params cr) = Some r ->
  status_code r = 304 ->
  exists w' out,
    online_request upstream "GET" url auth data url_params w = Ok c w' /\
    heap w' !! c = Some out /\
    serves "ONLINE_HIT" cr out /\
    sent w' = sent w ++ [conditional_get url auth url_params cr] /\
    cache w' = cache w.
Proof.
  intros Hps Hc Hcr Hlen Hlt Hup Hst.
  assert (full_last_page n len cr = false) as Hfull.
  { unfold full_last_page. apply andb_false_iff. left. apply Z.eqb_neq. lia. }
  eexists _, _. split; [by eapply run_cached_hit|].
  split; [by apply heap_tagged_old|].
  split; [apply serves_with_header|].
  split; [|done].
  unfold tagged. by rewrite sent_store, sent_answered, sent_looked_up_hit.
Qed.

Lemma online_304_short_page_is_hit_witness :
  exists w' out,
    online_request (E := Sample.externals) Sample.revalidating "GET"
      Sample.url None None Sample.two_per_page
      (Sample.world_with true Sample.short_page) = Ok 0%nat w' /\
    heap w' !! 0%nat = Some out /\
    serves "ONLINE_HIT" Sample.short_page out /\
    sent w' = sent (Sample.world_with true Sample.short_page) ++
              [conditional_get (E := Sample.externals) Sample.url None
                 Sample.two_per_page Sample.short_page] /\
    cache w' = cache (Sample.world_with true Sample.short_page).
Proof.
  apply (online_304_short_page_is_hit (E := Sample.externals)
           Sample.revalidating Sample.url None None Sample.two_per_page
           2 0%nat Sample.short_page 1%nat Sample.not_modified).
  - reflexivity.
  - vm_compute; reflexivity.
  - reflexivity.
  - reflexivity.
  - lia.
  - vm_compute; reflexivity.
  - reflexivity.
Defined.





(** C5. A response that the online handler considers for caching (the
    answer to its GET when that is neither a 304 nor a rate-limited 403,
    and the answer to the request it sends again for a stale page) is
    stored under the key of the request exactly when its status is 200
    and it carries ETag or Last-Modified: then the key is bound to the
    returned object, whatever it was bound to before, and no other key
    changes; otherwise (a 200 without both headers included) the cache
    is left as it was. This is what [_cache_response] does with any
    response and key, and every store a call of [online_request] makes
    is made this way. *)
Theorem response_is_stored_iff_cacheable `{E : Externals}
    (upstream : list Request -> Request -> option Response)
    (url : string) (auth data : option string)
    (url_params : option MultiDict) (n : Z) (w : World) :
  page_size_is url_params n ->
  (forall rq r,
     first_request "GET" url auth data url_params w = Some rq ->
     upstream (sent w) rq = Some r ->
     status_code r <> 304 ->
     ~ (status_code r = 403 /\ has_rate_limit_phrase r) ->
     exists w' evs,
       online_request upstream "GET" url auth data url_params w
         = Ok (length (heap w)) w' /\
       heap w' !! length (heap w)
         = Some (with_header "X-Cache" "ONLINE_MISS" r) /\
       trace w' = trace w ++ evs /\
       (cacheable r <->
        cache w' !! cache_key url auth = Some (length (heap w))) /\
       (cacheable r <->
        EvSet (cache_key url auth) (length (heap w)) ∈ evs) /\
       (~ cacheable r -> cache w' = cache w) /\
       (forall k', k' <> cache_key url auth ->
                   cache w' !! k' = cache w !! k')) /\
  (forall c cr len r r2,
     cache w !! cache_key url auth = Some c ->
     heap w !! c = Some cr ->
     element_count cr = Some len ->
     Z.of_nat len = n /\ links_of cr = ∅ ->
     is_Some (CI.get "ETag" (headers cr)) ->
     upstream (sent w) (conditional_get url auth url_params cr) = Some r ->
     status_code r = 304 ->
     upstream (sent w ++ [conditional_get url auth url_params cr])
              (refetch_get url auth url_params cr) = Some r2 ->
     exists w' evs,
       online_request upstream "GET" url auth data url_params w
         = Ok (S (length (heap w))) w' /\
       heap w' !! S (length (heap w))
         = Some (with_header "X-Cache" "ONLINE_MISS" r2) /\
       trace w' = trace w ++ evs /\
       (cacheable r2 <->
        cache w' !! cache_key url auth = Some (S (length (heap w)))) /\
       (cacheable r2 <->
        EvSet (cache_key url auth) (S (length (heap w))) ∈ evs) /\
       (~ cacheable r2 -> cache w' = cache w) /\
       (forall k', k' <> cache_key url auth ->
                   cache w' !! k' = cache w !! k')) /\
  (forall l k r w0,
     heap w0 !! l = Some r ->
     exists w',
       _cache_response l k w0 = Ok tt w' /\
       heap w' = heap w0 /\
       (cacheable r ->
        trace w' = trace w0 ++ [EvSet k l] /\
        cache w' !! k = Some l /\
        forall k', k' <> k -> cache w' !! k' = cache w0 !! k') /\
       (~ cacheable r -> w' = w0) /\
       (status_code r = 200 ->
        CI.get "ETag" (headers r) = None ->
        CI.get "Last-Modified" (headers r) = None -> w' = w0)) /\
  (forall method data0 url_params0 w0,
   exists evs,
     new_events w0
       (online_request upstream method url auth data0 url_params0 w0) evs /\
     forall k0 l0, EvSet k0 l0 ∈ evs ->
       k0 = cache_key url auth /\
       exists r0,
         heap (world_of (online_request upstream method url auth data0
                           url_params0 w0)) !! l0 = Some r0 /\
         cacheable r0).
Proof.
  intros Hps. split; [|split; [|split]].
  - intros rq r Hrq Hup Hst Hnrl.
    assert (rate_limitedb r = false) as Hrl.
    { apply not_true_is_false. by rewrite rate_limitedb_spec. }
    unfold first_request in Hrq.
    cbn [String.eqb Ascii.eqb Bool.eqb negb] in Hrq.
    destruct (cache w !! cache_key url auth) as [c|] eqn:Hc.
    + destruct (heap w !! c) as [cr|] eqn:Hcr; [|done]. simplify_eq.
      apply lookup_lt_Some in Hcr as Hlt.
      pose proof (run_cached_miss upstream url auth data url_params n c cr r
                    w Hps Hc Hcr Hup Hst Hrl) as Hrun.
      unfold cached_if_cacheable in Hrun.
      destruct (cacheableb r) eqn:Hcb.
      * assert (cacheable r) as Hca by by apply cacheableb_spec.
        eexists _, _. split; [exact Hrun|]. wsimpl.
        split; [apply snoc_insert_lookup|].
        split; [by rewrite <- !app_assoc|].
        split; [by rewrite lookup_insert_eq|].
        split; [split; [intros _; cbn [app]; rewrite !elem_of_cons; auto 10 | done]|].
        split; [done|]. intros k' Hk. by apply lookup_insert_ne.
      * assert (~ cacheable r) as Hca
          by (rewrite <- cacheableb_spec; by rewrite Hcb).
        eexists _, _. split; [exact Hrun|]. wsimpl.
        split; [apply snoc_insert_lookup|].
        split; [by rewrite <- !app_assoc|].
        split; [split; [done | rewrite Hc; intros ?; simplify_eq; lia]|].
        split; [split; [done | intros Hin; cbn [app] in Hin; repeat (apply elem_of_cons in Hin as [Hin|Hin]; [discriminate Hin|]); by apply elem_of_nil in Hin]|].
        split; done.
    + simplify_eq.
      pose proof (run_absent_miss upstream url auth data url_params n r w
                    Hps Hc Hup Hst Hrl) as Hrun.
      unfold cached_if_cacheable in Hrun.
      destruct (cacheableb r) eqn:Hcb.
      * assert (cacheable r) as Hca by by apply cacheableb_spec.
        eexists _, _. split; [exact Hrun|]. wsimpl.
        split; [apply snoc_insert_lookup|].
        split; [by rewrite <- !app_assoc|].
        split; [by rewrite lookup_insert_eq|].
        split; [split; [intros _; cbn [app]; rewrite !elem_of_cons; auto 10 | done]|].
        split; [done|]. intros k' Hk. by apply lookup_insert_ne.
      * assert (~ cacheable r) as Hca
          by (rewrite <- cacheableb_spec; by rewrite Hcb).
        eexists _, _. split; [exact Hrun|]. wsimpl.
        split; [apply snoc_insert_lookup|].
        split; [by rewrite <- !app_assoc|].
        split; [split; [done | by rewrite Hc]|].
        split; [split; [done | intros Hin; cbn [app] in Hin; repeat (apply elem_of_cons in Hin as [Hin|Hin]; [discriminate Hin|]); by apply elem_of_nil in Hin]|].
        split; done.
  - intros c cr len r r2 Hc Hcr Hlen Hfull Het Hup Hst Hup2.
    assert (full_last_page n len cr = true) as Hf.
    { unfold full_last_page.
      by rewrite andb_true_iff, Z.eqb_eq, bool_decide_eq_true. }
    apply lookup_lt_Some in Hcr as Hlt.
    pose proof (run_cached_refetch upstream url auth data url_params n c cr
                  len r r2 w Hps Hc Hcr Hup Hst Hlen Hf Het Hup2) as Hrun.
    unfold cached_if_cacheable in Hrun.
    assert (forall x : Response,
              <[S (length (heap w)) := x]> ((heap w ++ [r]) ++ [r2])
                !! S (length (heap w)) = Some x) as Hnew.
    { intros x. rewrite <- (snoc_length (heap w) r).
      apply snoc_insert_lookup. }
    destruct (cacheableb r2) eqn:Hcb.
    + assert (cacheable r2) as Hca by by apply cacheableb_spec.
      eexists _, _. split; [exact Hrun|]. wsimpl.
      split; [apply Hnew|].
      split; [by rewrite <- !app_assoc|].
      split; [by rewrite lookup_insert_eq|].
      split; [split; [intros _; cbn [app]; rewrite !elem_of_cons; auto 10 | done]|].
      split; [done|]. intros k' Hk. by apply lookup_insert_ne.
    + assert (~ cacheable r2) as Hca
        by (rewrite <- cacheableb_spec; by rewrite Hcb).
      eexists _, _. split; [exact Hrun|]. wsimpl.
      split; [apply Hnew|].
      split; [by rewrite <- !app_assoc|].
      split; [split; [done | rewrite Hc; intros ?; simplify_eq; lia]|].
      split; [split; [done | intros Hin; cbn [app] in Hin; repeat (apply elem_of_cons in Hin as [Hin|Hin]; [discriminate Hin|]); by apply elem_of_nil in Hin]|].
      split; done.
  - intros l k r w0 Hl.
    exists (cached_if_cacheable k l r w0).
    split; [by apply cache_response_run|].
    unfold cached_if_cacheable.
    destruct (cacheableb r) eqn:Hc.
    + apply cacheableb_spec in Hc. wsimpl.
      split; [done|]. split.
      * intros _. split; [done|]. split; [apply lookup_insert_eq|].
        intros k' Hk. by apply lookup_insert_ne.
      * split; [tauto|]. intros _ He Hlm.
        destruct Hc as [_ [[? ?]|[? ?]]]; congruence.
    + assert (~ cacheable r) as Hn.
      { rewrite <- cacheableb_spec. by rewrite Hc. }
      split; [done|]. split; [tauto|]. split; done.
  - intros method data0 url_params0 w0.
    by eapply online_request_stores.
Qed.

Lemma response_is_stored_iff_cacheable_witness :
  (exists w',
     online_request (E := Sample.externals) (Sample.always Sample.fresh_page)
       "GET" Sample.url None None None
       (Sample.world_with true Sample.full_page) = Ok 1%nat w' /\
     heap w' !! 1%nat
       = Some (with_header "X-Cache" "ONLINE_MISS" Sample.fresh_page) /\
     cache w' !! (Sample.url, None) = Some 1%nat) /\
  (exists w',
     online_request (E := Sample.externals) (Sample.always Sample.bare_page)
       "GET" Sample.url None None None
       (Sample.world_with true Sample.full_page) = Ok 1%nat w' /\
     heap w' !! 1%nat
       = Some (with_header "X-Cache" "ONLINE_MISS" Sample.bare_page) /\
     cache w' = cache (Sample.world_with true Sample.full_page)).
Proof.
  split.
  - destruct (response_is_stored_iff_cacheable (E := Sample.externals)
                (Sample.always Sample.fresh_page) Sample.url None None None
                100 (Sample.world_with true Sample.full_page) eq_refl)
      as (Hfirst & _).
    destruct (Hfirst (conditional_get (E := Sample.externals) Sample.url
                        None None Sample.full_page) Sample.fresh_page)
      as (w' & evs & Hrun & Hout & _ & Hstored & _).
    + vm_compute; reflexivity.
    + reflexivity.
    + discriminate.
    + intros [Hst _]. discriminate Hst.
    + exists w'. split; [exact Hrun|]. split; [exact Hout|].
      apply Hstored. split; [reflexivity|].
      left. exists "v2". vm_compute; reflexivity.
  - destruct (response_is_stored_iff_cacheable (E := Sample.externals)
                (Sample.always Sample.bare_page) Sample.url None None None
                100 (Sample.world_with true Sample.full_page) eq_refl)
      as (Hfirst & _).
    destruct (Hfirst (conditional_get (E := Sample.externals) Sample.url
                        None None Sample.full_page) Sample.bare_page)
      as (w' & evs & Hrun & Hout & _ & _ & _ & Hnot & _).
    + vm_compute; reflexivity.
    + reflexivity.
    + discriminate.
    + intros [Hst _]. discriminate Hst.
    + exists w'. split; [exact Hrun|]. split; [exact Hout|].
      apply Hnot. intros [_ [[v Hv]|[v Hv]]]; vm_compute in Hv; discriminate Hv.
Defined.

(** C6 as stated fails on the body: the bytes handed back are those of
    the gateway-timeout object followed by a line feed, not the object's
    text alone. Offline, nothing cached, a GET for [Sample.url]. *)
Lemma offline_miss_body_is_not_the_bare_object :
  exists w' out,
    conditional_request (E := Sample.externals) Sample.revalidating "GET"
      Sample.url None None None (Sample.empty_world false) = Ok 0%nat w' /\
    heap w' !! 0%nat = Some out /\
    status_code out = 504 /\
    x_cache out = Some "OFFLINE_MISS" /\
    content out <> gateway_timeout_object.
Proof.
  exists (world_of (conditional_request (E := Sample.externals)
                      Sample.revalidating "GET" Sample.url None None None
                      (Sample.empty_world false))),
         (error_response 504 default_error_message).
  conjs; try (vm_compute; reflexivity).
  vm_compute. discriminate.
Qed.

(** C6, amended. A GET dispatched while the upstream is flagged offline,
    for a key the cache lacks, returns (it does not raise) a new response
    with status 504, diagnostic OFFLINE_MISS and, as body, the text of the
    gateway-timeout object followed by a line feed; nothing is sent and
    the cache keeps its bindings. *)
Theorem offline_get_miss_synthesizes_504 `{E : Externals}
    (upstream : list Request -> Request -> option Response)
    (url : string) (auth data : option string)
    (url_params : option MultiDict) (w : World) :
  online w = false ->
  cache w !! cache_key url auth = None ->
  exists w' out,
    conditional_request upstream "GET" url auth data url_params w
      = Ok (length (heap w)) w' /\
    heap w' !! length (heap w) = Some out /\
    status_code out = 504 /\
    content out = gateway_timeout_object +:+ Str.newline /\
    x_cache out = Some "OFFLINE_MISS" /\
    sent w' = sent w /\
    cache w' = cache w.
Proof.
  intros Hoff Hc. rewrite (conditional_request_offline _ _ _ _ _ _ _ Hoff).
  eexists _, _. split; [by apply run_offline_miss|].
  split; [wsimpl; apply snoc_lookup_new|].
  conjs; try done.
  unfold looked_up_miss. by rewrite sent_push, sent_log_cache.
Qed.

Lemma offline_get_miss_synthesizes_504_witness :
  exists w' out,
    conditional_request (E := Sample.externals) Sample.revalidating "GET"
      Sample.url None None None (Sample.empty_world false) = Ok 0%nat w' /\
    heap w' !! 0%nat = Some out /\
    status_code out = 504 /\
    content out = gateway_timeout_object +:+ Str.newline /\
    x_cache out = Some "OFFLINE_MISS" /\
    sent w' = [] /\
    cache w' = ∅.
Proof.
  apply (offline_get_miss_synthesizes_504 (E := Sample.externals)
           Sample.revalidating Sample.url None None None
           (Sample.empty_world false)); reflexivity.
Defined.



(** C8. A request dispatched while the health flag is false makes no call
    on the transport, whatever its method and whatever the cache holds:
    the requests sent are those sent before, every new event is a call on
    the cache, and the outcome is the same for every transport. *)
Theorem offline_dispatch_never_sends `{E : Externals}
    (upstream : list Request -> Request -> option Response)
    (method url : string) (auth data : option string)
    (url_params : option MultiDict) (w : World) :
  online w = false ->
  sent (world_of (conditional_request upstream method url auth data
                    url_params w)) = sent w /\
  (exists evs,
     new_events w
       (conditional_request upstream method url auth data url_params w) evs /\
     forallb is_cache_event evs = true) /\
  forall upstream',
    conditional_request upstream' method url auth data url_params w =
    conditional_request upstream method url auth data url_params w.
Proof.
  intros Hoff.
  destruct (offline_request_events method url auth 504 default_error_message w)
    as (evs & Htr & Hevs).
  rewrite (conditional_request_offline _ _ _ _ _ _ _ Hoff).
  split; [|split].
  - unfold sent. rewrite Htr, omap_app.
    rewrite (cache_events_not_sent evs Hevs). apply app_nil_r.
  - by exists evs.
  - intros upstream'. by rewrite (conditional_request_offline _ _ _ _ _ _ _ Hoff).
Qed.

Lemma offline_dispatch_never_sends_witness :
  sent (world_of (conditional_request (E := Sample.externals)
                    Sample.revalidating "GET" Sample.url None None None
                    (Sample.world_with false Sample.full_page))) = [] /\
  sent (world_of (conditional_request (E := Sample.externals)
                    Sample.revalidating "DELETE" Sample.url None None None
                    (Sample.world_with false Sample.full_page))) = [].
Proof.
  split.
  - apply (offline_dispatch_never_sends (E := Sample.externals)
             Sample.revalidating "GET" Sample.url None None None
             (Sample.world_with false Sample.full_page)). reflexivity.
  - apply (offline_dispatch_never_sends (E := Sample.externals)
             Sample.revalidating "DELETE" Sample.url None None None
             (Sample.world_with false Sample.full_page)). reflexivity.
Defined.

(** C9 as stated fails: serving a cached response writes the diagnostic
    into the stored object itself. Offline, a page cached for
    [Sample.url]: after the hit, the object the cache holds for the key
    carries OFFLINE_HIT where it carried ONLINE_MISS. *)
Lemma serving_rewrites_the_stored_object :
  exists w' before after,
    offline_request (E := Sample.externals) "GET" Sample.url None 504
      default_error_message (Sample.world_with false Sample.full_page)
      = Ok 0%nat w' /\
    cache (Sample.world_with false Sample.full_page) !! (Sample.url, None)
      = Some 0%nat /\
    heap (Sample.world_with false Sample.full_page) !! 0%nat = Some before /\
    cache w' !! (Sample.url, None) = Some 0%nat /\
    heap w' !! 0%nat = Some after /\
    x_cache before = Some "ONLINE_MISS" /\
    x_cache after = Some "OFFLINE_HIT" /\
    ~ stored_objects_unchanged (Sample.world_with false Sample.full_page) w'.
Proof.
  exists (world_of (offline_request (E := Sample.externals) "GET" Sample.url
                      None 504 default_error_message
                      (Sample.world_with false Sample.full_page))),
         Sample.full_page,
         (with_header "X-Cache" "OFFLINE_HIT" Sample.full_page).
  conjs; try (vm_compute; reflexivity).
  intros H.
  assert (cache (Sample.world_with false Sample.full_page)
            !! (Sample.url, None) = Some 0%nat) as Hc
    by (vm_compute; reflexivity).
  apply H in Hc. apply (f_equal (fmap x_cache)) in Hc.
  vm_compute in Hc. discriminate Hc.
Qed.

(** C9, amended. Serving a cached response (online hit, rate-limited hit,
    offline hit) overwrites, in the stored object itself, the diagnostic
    header and nothing else: the object the key is bound to keeps its
    status, its body and its other headers, and the cache keeps its
    bindings. Storing a new response binds the key to the new object,
    leaves the other keys as they were, and leaves the object that was
    bound before as it was. *)
Theorem serving_rewrites_only_the_diagnostic `{E : Externals}
    (upstream : list Request -> Request -> option Response)
    (url : string) (auth data : option string)
    (url_params : option MultiDict) (n : Z) (c : nat) (cr : Response)
    (w : World) :
  page_size_is url_params n ->
  cache w !! cache_key url auth = Some c ->
  heap w !! c = Some cr ->
  (forall error_code error_message,
   exists w' out,
     offline_request "GET" url auth error_code error_message w = Ok c w' /\
     heap w' !! c = Some out /\
     serves "OFFLINE_HIT" cr out /\
     cache w' = cache w) /\
  (forall r,
   upstream (sent w) (conditional_get url auth url_params cr) = Some r ->
   (status_code r = 304 ->
    forall len,
      element_count cr = Some len ->
      full_last_page n len cr = false ->
      exists w' out,
        online_request upstream "GET" url auth data url_params w = Ok c w' /\
        heap w' !! c = Some out /\
        serves "ONLINE_HIT" cr out /\
        cache w' = cache w) /\
   (status_code r = 403 ->
    has_rate_limit_phrase r ->
    exists w' out,
      online_request upstream "GET" url auth data url_params w = Ok c w' /\
      heap w' !! c = Some out /\
      serves "RATE_LIMITED_HIT" cr out /\
      cache w' = cache w) /\
   (cacheable r ->
    exists w' out,
      online_request upstream "GET" url auth data url_params w
        = Ok (length (heap w)) w' /\
      cache w' !! cache_key url auth = Some (length (heap w)) /\
      (forall k', k' <> cache_key url auth ->
                  cache w' !! k' = cache w !! k') /\
      heap w' !! length (heap w) = Some out /\
      serves "ONLINE_MISS" r out /\
      heap w' !! c = Some cr)).
Proof.
  intros Hps Hc Hcr. split.
  - intros error_code error_message.
    eexists _, _. split; [by apply run_offline_hit|].
    split; [by apply heap_tagged_here|].
    split; [apply serves_with_header | done].
  - intros r Hup. split; [|split].
    + intros Hst len Hlen Hfull.
      eexists _, _. split; [by eapply run_cached_hit|].
      split; [by apply heap_tagged_old|].
      split; [apply serves_with_header | done].
    + intros Hst Hph.
      assert (rate_limitedb r = true) as Hrl by by apply rate_limitedb_spec.
      eexists _, _. split; [by eapply run_cached_rate_limited|].
      split; [by apply heap_tagged_old|].
      split; [apply serves_with_header | done].
    + intros Hca.
      assert (cacheableb r = true) as Hcb by by apply cacheableb_spec.
      destruct Hca as [Hst _].
      assert (rate_limitedb r = false) as Hrl.
      { unfold rate_limitedb. by rewrite Hst. }
      eexists _, _. split.
      { eapply run_cached_miss; eauto. by rewrite Hst. }
      unfold cached_if_cacheable. rewrite Hcb. wsimpl.
      split; [apply lookup_insert_eq|].
      split; [intros k' Hk; by apply lookup_insert_ne|].
      split; [apply snoc_insert_lookup|].
      split; [apply serves_with_header|].
      rewrite list_lookup_insert_ne.
      * by apply snoc_lookup_old.
      * apply lookup_lt_Some in Hcr. lia.
Qed.

Lemma serving_rewrites_only_the_diagnostic_witness :
  (exists w' out,
     offline_request (E := Sample.externals) "GET" Sample.url None 504
       default_error_message (Sample.world_with false Sample.full_page)
       = Ok 0%nat w' /\
     heap w' !! 0%nat = Some out /\
     serves "OFFLINE_HIT" Sample.full_page out /\
     cache w' = cache (Sample.world_with false Sample.full_page)) /\
  (exists w' out,
     online_request (E := Sample.externals) (Sample.always Sample.fresh_page)
       "GET" Sample.url None None None
       (Sample.world_with true Sample.full_page) = Ok 1%nat w' /\
     cache w' !! (Sample.url, None) = Some 1%nat /\
     heap w' !! 1%nat = Some out /\
     serves "ONLINE_MISS" Sample.fresh_page out /\
     heap w' !! 0%nat = Some Sample.full_page).
Proof.
  destruct (serving_rewrites_only_the_diagnostic (E := Sample.externals)
              (Sample.always Sample.fresh_page) Sample.url None None None
              100 0%nat Sample.full_page
              (Sample.world_with true Sample.full_page) eq_refl)
    as [_ Hon]; [vm_compute; reflexivity | reflexivity |].
  destruct (serving_rewrites_only_the_diagnostic (E := Sample.externals)
              (Sample.always Sample.fresh_page) Sample.url None None None
              100 0%nat Sample.full_page
              (Sample.world_with false Sample.full_page) eq_refl)
    as [Hoff _]; [vm_compute; reflexivity | reflexivity |].
  split; [apply Hoff|].
  destruct (Hon Sample.fresh_page eq_refl) as (_ & _ & Hstore).
  destruct Hstore as (w' & out & Hrun & Hk & _ & Hout & Hserves & Hold).
  - split; [reflexivity|]. left. exists "v2". vm_compute; reflexivity.
  - exists w', out. auto.
Defined.

(** C10. An online GET for a key the cache lacks, answered 304 by the
    upstream, raises AttributeError at line 128, where the absent cached
    response is dereferenced; and an online GET can raise AttributeError
    only if the cache had no entry for its key when it was asked. *)
Theorem online_304_without_entry_raises `{E : Externals}
    (upstream : list Request -> Request -> option Response)
    (url : string) (auth data : option string)
    (url_params : option MultiDict) (n : Z) (r : Response) (w : World) :
  page_size_is url_params n ->
  upstream (sent w) (plain_get url auth url_params) = Some r ->
  status_code r = 304 ->
  (cache w !! cache_key url auth = None ->
   online_request upstream "GET" url auth data url_params w =
     Raise AttributeError
       (answered (plain_get url auth url_params) r
          (looked_up_miss (cache_key url auth) w))) /\
  (forall w',
     online_request upstream "GET" url auth data url_params w
       = Raise AttributeError w' ->
     cache w !! cache_key url auth = None).
Proof.
  intros Hps Hup Hst. split.
  - intros Hc. by eapply run_absent_304.
  - intros w' Hres.
    destruct (cache w !! cache_key url auth) as [c|] eqn:Hc; [|done].
    by destruct (online_cached_no_attribute_error upstream url auth data
                   url_params c w w' Hc).
Qed.

Lemma online_304_without_entry_raises_witness :
  online_request (E := Sample.externals) Sample.always_not_modified "GET"
    Sample.url None None None (Sample.empty_world true) =
  Raise AttributeError
    (answered (plain_get (E := Sample.externals) Sample.url None None)
       Sample.not_modified
       (looked_up_miss (Sample.url, None) (Sample.empty_world true))).
Proof.
  apply (online_304_without_entry_raises (E := Sample.externals)
           Sample.always_not_modified Sample.url None None None 100
           Sample.not_modified (Sample.empty_world true));
    reflexivity.
Defined.

(** * Further properties *)

(** ** Every path of a call *)

(** Unfolds a handler down to the world changes. *)
Ltac unfold_handlers :=
  unfold conditional_request, online_request, offline_request,
    _get_elements_per_page, _cache_response, _should_serve_from_cache,
    response_json, dict_pop, of_option,
    requests_request, alloc, deref, set_header, cache_contains, cache_get,
    cache_set, github_status_online, bind, ret, raise.

(** What is known of an object looked up in a heap that has grown. *)
Ltac heap_norm :=
  repeat match goal with
  | H : (?h ++ [?r]) !! length ?h = Some ?a |- _ =>
      rewrite snoc_lookup_new in H; simplify_eq
  | H : (?h ++ [?r]) !! length ?h = None |- _ =>
      rewrite snoc_lookup_new in H; discriminate H
  | H : <[length ?h := ?x]> (?h ++ [?r]) !! length ?h = Some ?a |- _ =>
      rewrite snoc_insert_lookup in H; simplify_eq
  | H : <[length ?h := ?x]> (?h ++ [?r]) !! length ?h = None |- _ =>
      rewrite snoc_insert_lookup in H; discriminate H
  | H1 : ?h !! ?c = Some ?a, H2 : (?h ++ [?r]) !! ?c = Some ?b |- _ =>
      rewrite (snoc_lookup_old h r a c H1) in H2; simplify_eq
  | H1 : ?h !! ?c = Some ?a, H2 : (?h ++ [?r]) !! ?c = None |- _ =>
      rewrite (snoc_lookup_old h r a c H1) in H2; discriminate H2
  end.

(** Every path of [online_request], from the equation [res = ...]. *)
Ltac online_paths :=
  unfold online_request;
  unfold bind at 1; rewrite get_elements_per_page_eq;
  match goal with
  | |- context [requested_per_page ?u] =>
      destruct (requested_per_page u) as [?|] eqn:?
  end;
  try match goal with
      | |- context [py_int ?s] => destruct (py_int s) eqn:?
      end;
  try match goal with
      | |- context [page_size ?a ?b] => destruct (page_size a b) as [? ?] eqn:?
      end;
  try match goal with
      | |- context [authorize ?a ∅] => destruct (authorize a ∅) as [? ?] eqn:?
      end;
  wsimpl; unfold_handlers; intros ?;
  repeat (case_match; simplify_eq; wsimpl; heap_norm);
  simplify_eq; wsimpl.

(** Every path of [offline_request], from the equation [res = ...]. *)
Ltac offline_paths :=
  unfold offline_request;
  match goal with
  | |- context [authorize ?a ∅] => destruct (authorize a ∅) as [? ?] eqn:?
  end;
  wsimpl;
  unfold_handlers; intros ?;
  repeat (case_match; simplify_eq; wsimpl; heap_norm);
  simplify_eq; wsimpl.

(** Solves a lookup in a heap built by the handlers. *)
Ltac heap_goal :=
  repeat first
    [ assumption
    | apply snoc_insert_lookup
    | apply snoc_lookup_new
    | apply snoc_lookup_old
    | rewrite list_lookup_insert_ne
        by (repeat match goal with
                   | H : _ !! _ = Some _ |- _ =>
                       apply lookup_lt_Some in H
                   end; rewrite ?length_app in *; cbn [length] in *; lia)
    | apply list_lookup_insert_eq;
      repeat match goal with
             | H : _ !! _ = Some _ |- _ => apply lookup_lt_Some in H
             end; rewrite ?length_app in *; cbn [length] in *; lia ].

Section AllPaths.

Context {E : Externals}.
Variable upstream : list Request -> Request -> option Response.

Lemma online_request_cache_frame method url auth data url_params w res :
  res = online_request upstream method url auth data url_params w ->
  cache (world_of res) = cache w \/
  exists l r,
    cache (world_of res) = <[cache_key url auth := l]> (cache w) /\
    heap (world_of res) !! l = Some r /\
    cacheable r /\
    (length (heap w) <= l)%nat.
Proof.
  unfold cache_key. online_paths.
  all: try (left; reflexivity).
  all: right; eexists _, _; split; [reflexivity|].
  all: split; [apply snoc_insert_lookup|].
  all: split; [by apply cacheableb_spec | rewrite ?snoc_length; lia].
Qed.

Lemma online_request_heap_frame method url auth data url_params w res :
  res = online_request upstream method url auth data url_params w ->
  forall l r,
    heap w !! l = Some r ->
    heap (world_of res) !! l = Some r \/
    (cache w !! cache_key url auth = Some l /\
     exists v, v ∈ online_diagnostics /\
               heap (world_of res) !! l = Some (with_header "X-Cache" v r)).
Proof.
  unfold cache_key. online_paths.
  all: intros lx rx Hlx.
  all: try (left; solve [heap_goal]).
  all: match goal with
       | |- context [<[?c := _]> _ !! ?i] =>
           destruct (decide (i = c)) as [->|Hne]; [|left; solve [heap_goal]]
       end.
  all: right; simplify_eq; split; [done|].
  all: eexists; split; [|solve [heap_goal]].
  all: unfold online_diagnostics; set_solver.
Qed.

Lemma authorize_authorization auth :
  (authorize auth ∅).2 !! "Authorization" = auth.
Proof. destruct auth; [apply lookup_insert_eq | done]. Qed.

Lemma conditional_headers_other cr (h : gmap string string) k :
  k <> "If-None-Match" -> k <> "If-Modified-Since" ->
  conditional_headers cr h !! k = h !! k.
Proof.
  intros H1 H2. unfold conditional_headers.
  destruct (CI.get "ETag" (headers cr)), (CI.get "Last-Modified" (headers cr));
    by rewrite ?lookup_insert_ne.
Qed.

Lemma online_request_raise method url auth data url_params w e w' :
  online_request upstream method url auth data url_params w = Raise e w' ->
  cache w' = cache w /\
  forall l r, heap w !! l = Some r -> heap w' !! l = Some r.
Proof.
  intros Hres. symmetry in Hres. revert Hres. online_paths.
  all: split; [done|]; intros lx rx Hlx; solve [heap_goal].
Qed.


Lemma online_request_call_order method url auth data url_params w res :
  res = online_request upstream method url auth data url_params w ->
  exists evs,
    trace (world_of res) = trace w ++ evs /\
    in_call_order Idle evs = true /\
    forall e, e ∈ evs ->
      match e with
      | EvSend rq =>
          req_method rq = method /\ req_url rq = url /\
          req_timeout rq = REQUESTS_TIMEOUT /\
          req_headers rq !! "Authorization" = auth /\
          req_data rq = (if String.eqb method "GET" then None else data) /\
          req_params rq = outgoing_parameters url_params
      | EvContains k | EvGet k | EvSet k _ => k = cache_key url auth
      end.
Proof.
  unfold cache_key. online_paths.
  all: rewrite <- ?app_assoc; cbn [app].
  all: try (exists []; split; [by rewrite app_nil_r|]; split; [done|];
            intros e He; by apply elem_of_nil in He).
  all: eexists; split; [reflexivity|]; split; [reflexivity|].
  all: intros e He.
  all: repeat (apply elem_of_cons in He as [->|He]); try by apply elem_of_nil in He.
  all: try done.
  all: cbn [req_method req_url req_timeout req_headers req_data req_params].
  all: unfold outgoing_parameters, page_size in *.
  all: repeat match goal with
              | H : requested_per_page _ = _ |- _ => rewrite H; clear H
              end.
  all: simplify_eq.
  all: match goal with
       | H : authorize ?a ∅ = (_, ?g) |- _ =>
           assert (g !! "Authorization" = a)
             by (generalize (authorize_authorization a); by rewrite H)
       end.
  all: match goal with
       | H : negb ?b = _ |- _ => destruct b; try discriminate H
       end.
  all: conjs; try done.
  all: by rewrite ?lookup_delete_ne, ?conditional_headers_other by done.
Qed.

End AllPaths.

Section OfflineAllPaths.

Context {E : Externals}.

Lemma offline_request_frame method url auth error_code error_message w res :
  res = offline_request method url auth error_code error_message w ->
  cache (world_of res) = cache w /\
  forall l r,
    heap w !! l = Some r ->
    heap (world_of res) !! l = Some r \/
    (method = "GET" /\ cache w !! cache_key url auth = Some l /\
     heap (world_of res) !! l = Some (with_header "X-Cache" "OFFLINE_HIT" r)).
Proof.
  unfold cache_key. offline_paths.
  all: split; [done|]; intros lx rx Hlx.
  all: try (left; solve [heap_goal]).
  all: match goal with
       | |- context [<[?c := _]> _ !! ?i] =>
           destruct (decide (i = c)) as [->|Hne]; [|left; solve [heap_goal]]
       end.
  all: right; simplify_eq.
  all: match goal with
       | H : negb (String.eqb ?m "GET") = false |- _ =>
           apply negb_false_iff, String.eqb_eq in H; subst
       end.
  all: split; [done|]; split; [done|]; solve [heap_goal].
Qed.


Lemma offline_request_call_order method url auth error_code error_message
    w res :
  res = offline_request method url auth error_code error_message w ->
  exists evs,
    trace (world_of res) = trace w ++ evs /\
    in_call_order Idle evs = true /\
    forall e, e ∈ evs ->
      match e with
      | EvContains k | EvGet k => k = cache_key url auth
      | EvSend _ | EvSet _ _ => False
      end.
Proof.
  unfold cache_key. offline_paths.
  all: rewrite <- ?app_assoc; cbn [app].
  all: try (exists []; split; [by rewrite app_nil_r|]; split; [done|];
            intros e He; by apply elem_of_nil in He).
  all: eexists; split; [reflexivity|]; split; [reflexivity|].
  all: intros e He.
  all: repeat (apply elem_of_cons in He as [->|He]); try by apply elem_of_nil in He.
  all: done.
Qed.

End OfflineAllPaths.

(** ** Paths that end in an exception *)

(** The lookup of lines 109-125 for a key bound to [c], when the upstream
    answers. *)
Ltac get_hit Hc Hcr Hup :=
  cbn [String.eqb Ascii.eqb Bool.eqb negb];
  step (cache_contains_hit _ _ _ Hc);
  step_by ltac:(apply cache_get_Ok; wsimpl; exact Hc);
  step_by ltac:(apply deref_Ok; wsimpl; exact Hcr);
  step_by ltac:(apply requests_request_Ok; rewrite !sent_log_cache by done;
                exact Hup);
  step_by ltac:(apply deref_Ok; hsolve).

(** The count of line 128, when the cached body has a length. *)
Ltac count_body Hlen :=
  let body := fresh "body" in
  let Hj := fresh "Hj" in
  let Hl := fresh "Hl" in
  cbn [of_option]; mnorm;
  match goal with
  | |- context [bind (response_json ?c) _ ?w] =>
      destruct (response_json_len c _ w ltac:(hsolve) _ Hlen)
        as (body & Hj & Hl)
  end;
  step Hj; rewrite Hl; cbn [of_option]; mnorm;
  step_by ltac:(apply deref_Ok; hsolve).

Section FailingPaths.

Context {E : Externals}.
Variable upstream : list Request -> Request -> option Response.

(** Steps one [bind] whose first computation raises, by [tac]. *)
Ltac fail_by tac := mnorm; erewrite bind_Raise by tac.

Lemma run_non_get_transport_failure method url auth data url_params n w :
  method <> "GET" ->
  page_size_is url_params n ->
  upstream (sent w) (forwarded_request method url auth data url_params)
    = None ->
  online_request upstream method url auth data url_params w =
    Raise RequestException
      (log (EvSend (forwarded_request method url auth data url_params)) w).
Proof.
  intros Hm Hps Hup. prelude Hps.
  apply String.eqb_neq in Hm. rewrite Hm. cbn [negb].
  by rewrite (bind_Raise _ _ _ _ _ (requests_request_Raise upstream _ _ Hup)).
Qed.

Lemma run_absent_transport_failure url auth data url_params n w :
  page_size_is url_params n ->
  cache w !! cache_key url auth = None ->
  upstream (sent w) (plain_get url auth url_params) = None ->
  online_request upstream "GET" url auth data url_params w =
    Raise RequestException
      (log (EvSend (plain_get url auth url_params))
         (looked_up_miss (cache_key url auth) w)).
Proof.
  intros Hps Hc Hup. prelude Hps.
  cbn [String.eqb Ascii.eqb Bool.eqb negb].
  step (cache_contains_miss _ _ Hc).
  fail_by ltac:(apply requests_request_Raise; rewrite sent_log_cache by done;
                exact Hup).
  done.
Qed.

Lemma run_cached_transport_failure url auth data url_params n c cr w :
  page_size_is url_params n ->
  cache w !! cache_key url auth = Some c ->
  heap w !! c = Some cr ->
  upstream (sent w) (conditional_get url auth url_params cr) = None ->
  online_request upstream "GET" url auth data url_params w =
    Raise RequestException
      (log (EvSend (conditional_get url auth url_params cr))
         (looked_up_hit (cache_key url auth) w)).
Proof.
  intros Hps Hc Hcr Hup. prelude Hps.
  cbn [String.eqb Ascii.eqb Bool.eqb negb].
  step (cache_contains_hit _ _ _ Hc).
  step_by ltac:(apply cache_get_Ok; wsimpl; exact Hc).
  step_by ltac:(apply deref_Ok; wsimpl; exact Hcr).
  fail_by ltac:(apply requests_request_Raise; rewrite !sent_log_cache by done;
                exact Hup).
  done.
Qed.

Lemma run_cached_undecodable url auth data url_params n c cr r w :
  page_size_is url_params n ->
  cache w !! cache_key url auth = Some c ->
  heap w !! c = Some cr ->
  upstream (sent w) (conditional_get url auth url_params cr) = Some r ->
  status_code r = 304 ->
  json_loads (content cr) = None ->
  online_request upstream "GET" url auth data url_params w =
    Raise JSONDecodeError
      (answered (conditional_get url auth url_params cr) r
         (looked_up_hit (cache_key url auth) w)).
Proof.
  intros Hps Hc Hcr Hup Hst Hj. prelude Hps. get_hit Hc Hcr Hup.
  rewrite Hst. cbn [Z.eqb Pos.eqb]. cbn [of_option]. mnorm.
  unfold response_json. mnorm.
  step_by ltac:(apply deref_Ok; hsolve).
  by rewrite Hj.
Qed.

Lemma run_cached_unsized url auth data url_params n c cr r body w :
  page_size_is url_params n ->
  cache w !! cache_key url auth = Some c ->
  heap w !! c = Some cr ->
  upstream (sent w) (conditional_get url auth url_params cr) = Some r ->
  status_code r = 304 ->
  json_loads (content cr) = Some body ->
  py_len body = None ->
  online_request upstream "GET" url auth data url_params w =
    Raise TypeError
      (answered (conditional_get url auth url_params cr) r
         (looked_up_hit (cache_key url auth) w)).
Proof.
  intros Hps Hc Hcr Hup Hst Hj Hl. prelude Hps. get_hit Hc Hcr Hup.
  rewrite Hst. cbn [Z.eqb Pos.eqb]. cbn [of_option]. mnorm.
  unfold response_json. mnorm.
  step_by ltac:(apply deref_Ok; hsolve).
  rewrite Hj. cbn [of_option]. mnorm. by rewrite Hl.
Qed.

Lemma run_cached_refetch_failure url auth data url_params n c cr len r w :
  page_size_is url_params n ->
  cache w !! cache_key url auth = Some c ->
  heap w !! c = Some cr ->
  upstream (sent w) (conditional_get url auth url_params cr) = Some r ->
  status_code r = 304 ->
  element_count cr = Some len ->
  full_last_page n len cr = true ->
  is_Some (CI.get "ETag" (headers cr)) ->
  upstream (sent w ++ [conditional_get url auth url_params cr])
           (refetch_get url auth url_params cr) = None ->
  online_request upstream "GET" url auth data url_params w =
    Raise RequestException
      (log (EvSend (refetch_get url auth url_params cr))
         (answered (conditional_get url auth url_params cr) r
            (looked_up_hit (cache_key url auth) w))).
Proof.
  intros Hps Hc Hcr Hup Hst Hlen Hfull [etag Het] Hup2.
  prelude Hps. get_hit Hc Hcr Hup.
  rewrite Hst. cbn [Z.eqb Pos.eqb].
  count_body Hlen.
  fold (full_last_page n len cr). rewrite Hfull.
  step_by ltac:(apply (dict_pop_Ok _ etag), conditional_headers_etag, Het).
  fail_by ltac:(apply requests_request_Raise;
                rewrite sent_push, sent_log_send, !sent_log_cache by done;
                exact Hup2).
  done.
Qed.

End FailingPaths.

(** ** More on the pieces *)

Lemma in_call_order_sends p evs :
  in_call_order p evs = true ->
  (length (omap is_send evs) <= sends_left p)%nat.
Proof.
  revert p. induction evs as [|e evs IH]; intros p; [simpl; lia|].
  cbn [in_call_order]. destruct (next_phase p e) as [p'|] eqn:Hp; [|done].
  intros H. apply IH in H.
  destruct p, e; simplify_eq/=; lia.
Qed.

Lemma in_call_order_stores p evs :
  in_call_order p evs = true ->
  (length (filter (fun e => is_store e = true) evs) <= 1)%nat /\
  (p = Stored -> evs = []).
Proof.
  revert p. induction evs as [|e evs IH]; intros p; [by simpl; auto|].
  cbn [in_call_order]. destruct (next_phase p e) as [p'|] eqn:Hp; [|done].
  intros H. apply IH in H as [Hlen Hst].
  split; [|by destruct p, e].
  destruct p, e; simplify_eq/=;
    rewrite ?filter_cons_True, ?filter_cons_False by done;
    try lia.
  all: by rewrite Hst.
Qed.


Section Tagging.

Context {E : Externals}.

Lemma conditional_get_tagged url auth url_params v r :
  conditional_get url auth url_params (with_header "X-Cache" v r) =
  conditional_get url auth url_params r.
Proof.
  unfold conditional_get, conditional_headers, with_header.
  cbn [headers]. by rewrite !CI_get_set_ne.
Qed.

Lemma links_of_tagged v r : links_of (with_header "X-Cache" v r) = links_of r.
Proof.
  unfold links_of, with_header. cbn [headers]. by rewrite CI_get_set_ne.
Qed.

Lemma full_last_page_tagged n len v r :
  full_last_page n len (with_header "X-Cache" v r) = full_last_page n len r.
Proof. unfold full_last_page. by rewrite links_of_tagged. Qed.

Lemma cacheable_tagged v r : cacheable (with_header "X-Cache" v r) <-> cacheable r.
Proof. by rewrite <- !cacheableb_spec, cacheableb_tagged. Qed.

Lemma serves_retag v v' r out :
  serves v (with_header "X-Cache" v' r) out -> serves v r out.
Proof.
  intros (Hs & Hc & Hx & Hh). repeat split; try done.
  intros h Hne. rewrite (Hh h Hne).
  unfold with_header. cbn [headers]. apply CI_get_set_ne. congruence.
Qed.

Lemma serves_refl_tag v r : x_cache r = Some v -> serves v r r.
Proof. intros H. by repeat split. Qed.

End Tagging.

Section OfflineMore.

Context {E : Externals}.

Lemma offline_request_raise method url auth error_code error_message w e w' :
  offline_request method url auth error_code error_message w = Raise e w' ->
  cache w' = cache w /\
  forall l r, heap w !! l = Some r -> heap w' !! l = Some r.
Proof.
  intros Hres. symmetry in Hres. revert Hres. offline_paths.
  all: split; [done|]; intros lx rx Hlx; solve [heap_goal].
Qed.


End OfflineMore.

(** * Further properties of the handlers *)

(** X1. Offline, a request whose method is not GET is answered with a new
    response made of the error code, the error body and the diagnostic
    OFFLINE_MISS, for any error code and body; no collaborator is called
    (the trace stays as it was) and the cache keeps its bindings. *)
Theorem offline_non_get_synthesizes_error `{E : Externals}
    (method url : string) (auth : option string) (error_code : Z)
    (error_message : string) (w : World) :
  method <> "GET" ->
  exists w' out,
    offline_request method url auth error_code error_message w
      = Ok (length (heap w)) w' /\
    heap w' !! length (heap w) = Some out /\
    status_code out = error_code /\
    content out = error_message /\
    x_cache out = Some "OFFLINE_MISS" /\
    trace w' = trace w /\
    cache w' = cache w.
Proof.
  intros Hm. eexists _, _. split; [by apply run_offline_non_get|].
  split; [wsimpl; apply snoc_lookup_new|]. by conjs.
Qed.

Lemma offline_non_get_synthesizes_error_witness :
  exists w' out,
    offline_request (E := Sample.externals) "POST" Sample.url None 503
      "down" (Sample.world_with false Sample.full_page) = Ok 1%nat w' /\
    heap w' !! 1%nat = Some out /\
    status_code out = 503 /\
    content out = "down" /\
    x_cache out = Some "OFFLINE_MISS" /\
    trace w' = [] /\
    cache w' = cache (Sample.world_with false Sample.full_page).
Proof.
  apply (offline_non_get_synthesizes_error (E := Sample.externals) "POST"
           Sample.url None 503 "down"
           (Sample.world_with false Sample.full_page)).
  discriminate.
Defined.




(** X4. Online, a [per_page] that [int] rejects makes the call raise
    ValueError before any collaborator is called, for every method: the
    world is left exactly as it was. *)
Theorem malformed_page_size_raises_before_any_call `{E : Externals}
    (upstream : list Request -> Request -> option Response)
    (method url : string) (auth data : option string)
    (url_params : option MultiDict) (s : string) (w : World) :
  online w = true ->
  requested_per_page url_params = Some s ->
  py_int s = None ->
  conditional_request upstream method url auth data url_params w
    = Raise ValueError w.
Proof.
  intros Hon Hs Hi. rewrite (conditional_request_online _ _ _ _ _ _ _ Hon).
  by eapply online_request_malformed_page_size.
Qed.

Lemma malformed_page_size_raises_before_any_call_witness :
  conditional_request (E := Sample.externals) Sample.revalidating "GET"
    Sample.url None None Sample2.malformed_per_page
    (Sample.world_with true Sample.full_page)
  = Raise ValueError (Sample.world_with true Sample.full_page).
Proof.
  apply (malformed_page_size_raises_before_any_call (E := Sample.externals)
           Sample.revalidating "GET" Sample.url None None
           Sample2.malformed_per_page "many"); reflexivity.
Defined.

(** X5. When the transport fails on the first request of an online call
    (the forwarded request, the plain GET or the conditional GET), the
    call raises the transport's failure after that one request; the cache
    has been read at most, its bindings and every object are as they
    were. *)
Theorem transport_failure_propagates `{E : Externals}
    (upstream : list Request -> Request -> option Response)
    (method url : string) (auth data : option string)
    (url_params : option MultiDict) (n : Z) (rq : Request) (w : World) :
  page_size_is url_params n ->
  first_request method url auth data url_params w = Some rq ->
  upstream (sent w) rq = None ->
  exists w',
    online_request upstream method url auth data url_params w
      = Raise RequestException w' /\
    sent w' = sent w ++ [rq] /\
    heap w' = heap w /\
    cache w' = cache w.
Proof.
  intros Hps Hrq Hup. unfold first_request in Hrq.
  destruct (String.eqb method "GET") eqn:Hm; cbn [negb] in Hrq.
  - apply String.eqb_eq in Hm as ->.
    destruct (cache w !! cache_key url auth) as [c|] eqn:Hc.
    + destruct (heap w !! c) as [cr|] eqn:Hcr; [|done]. simplify_eq.
      eexists. split; [by eapply run_cached_transport_failure|].
      split; [|done]. unfold looked_up_hit.
      by rewrite sent_log_send, !sent_log_cache.
    + simplify_eq.
      eexists. split; [by eapply run_absent_transport_failure|].
      split; [|done]. unfold looked_up_miss.
      by rewrite sent_log_send, !sent_log_cache.
  - apply String.eqb_neq in Hm. simplify_eq.
    eexists. split; [by eapply run_non_get_transport_failure|].
    split; [|done]. by rewrite sent_log_send.
Qed.

Lemma transport_failure_propagates_witness :
  exists w',
    online_request (E := Sample.externals) (fun _ _ => None) "GET"
      Sample.url None None None (Sample.world_with true Sample.full_page)
      = Raise RequestException w' /\
    sent w' = sent (Sample.world_with true Sample.full_page) ++
              [conditional_get (E := Sample.externals) Sample.url None None
                 Sample.full_page] /\
    heap w' = heap (Sample.world_with true Sample.full_page) /\
    cache w' = cache (Sample.world_with true Sample.full_page).
Proof.
  apply (transport_failure_propagates (E := Sample.externals)
           (fun _ _ => None) "GET" Sample.url None None None 100).
  - reflexivity.
  - vm_compute; reflexivity.
  - reflexivity.
Defined.

(** X6. Every request an online call sends is the caller's: same method,
    same URL, the configured timeout, the credential as it was given in
    the Authorization header (no such header without credential), the
    outgoing query, and the caller's body for a method other than GET
    (none for GET). *)
Theorem every_request_carries_the_call `{E : Externals}
    (upstream : list Request -> Request -> option Response)
    (method url : string) (auth data : option string)
    (url_params : option MultiDict) (w : World) :
  exists evs,
    new_events w
      (online_request upstream method url auth data url_params w) evs /\
    forall rq, EvSend rq ∈ evs ->
      req_method rq = method /\
      req_url rq = url /\
      req_timeout rq = REQUESTS_TIMEOUT /\
      req_headers rq !! "Authorization" = auth /\
      req_data rq = (if String.eqb method "GET" then None else data) /\
      req_params rq = outgoing_parameters url_params.
Proof.
  destruct (online_request_call_order upstream method url auth data
              url_params w _ eq_refl) as (evs & Htr & _ & Hall).
  exists evs. split; [exact Htr|].
  intros rq Hrq. exact (Hall _ Hrq).
Qed.

Lemma every_request_carries_the_call_witness :
  exists evs,
    new_events (Sample.world_with true Sample.full_page)
      (online_request (E := Sample.externals) Sample.revalidating "GET"
         Sample.url (Some "token abc") None Sample.two_per_page
         (Sample.world_with true Sample.full_page)) evs /\
    forall rq, EvSend rq ∈ evs ->
      req_method rq = "GET" /\
      req_url rq = Sample.url /\
      req_timeout rq = 10 /\
      req_headers rq !! "Authorization" = Some "token abc" /\
      req_data rq = None /\
      req_params rq =
        outgoing_parameters (E := Sample.externals) Sample.two_per_page.
Proof.
  apply (every_request_carries_the_call (E := Sample.externals)
           Sample.revalidating "GET" Sample.url (Some "token abc") None
           Sample.two_per_page (Sample.world_with true Sample.full_page)).
Defined.

(** X7. Within one dispatched call the collaborators are called in a
    fixed order: at most one membership test of the cache, then at most
    one read of the entry, then at most two requests, then at most one
    store; and every call on the cache is made with the key of the
    request. *)
Theorem calls_come_in_order `{E : Externals}
    (upstream : list Request -> Request -> option Response)
    (method url : string) (auth data : option string)
    (url_params : option MultiDict) (w : World) :
  exists evs,
    new_events w
      (conditional_request upstream method url auth data url_params w) evs /\
    in_call_order Idle evs = true /\
    (length (omap is_send evs) <= 2)%nat /\
    (length (filter (fun e => is_store e = true) evs) <= 1)%nat /\
    forall e, e ∈ evs ->
      match e with
      | EvSend _ => True
      | EvContains k | EvGet k | EvSet k _ => k = cache_key url auth
      end.
Proof.
  destruct (online w) eqn:Hon.
  - rewrite (conditional_request_online _ _ _ _ _ _ _ Hon).
    destruct (online_request_call_order upstream method url auth data
                url_params w _ eq_refl) as (evs & Htr & Hord & Hall).
    exists evs. split; [exact Htr|]. split; [exact Hord|].
    split; [exact (in_call_order_sends _ _ Hord)|].
    split; [exact (proj1 (in_call_order_stores _ _ Hord))|].
    intros e He. specialize (Hall e He). by destruct e.
  - rewrite (conditional_request_offline _ _ _ _ _ _ _ Hon).
    destruct (offline_request_call_order method url auth 504
                default_error_message w _ eq_refl)
      as (evs & Htr & Hord & Hall).
    exists evs. split; [exact Htr|]. split; [exact Hord|].
    split; [exact (in_call_order_sends _ _ Hord)|].
    split; [exact (proj1 (in_call_order_stores _ _ Hord))|].
    intros e He. specialize (Hall e He). by destruct e.
Qed.

Lemma calls_come_in_order_witness :
  exists evs,
    new_events (Sample.world_with true Sample.full_page)
      (conditional_request (E := Sample.externals) Sample.revalidating "GET"
         Sample.url None None Sample.two_per_page
         (Sample.world_with true Sample.full_page)) evs /\
    in_call_order Idle evs = true /\
    (length (omap is_send evs) <= 2)%nat.
Proof.
  destruct (calls_come_in_order (E := Sample.externals) Sample.revalidating
              "GET" Sample.url None None Sample.two_per_page
              (Sample.world_with true Sample.full_page))
    as (evs & Htr & Hord & Hsends & _).
  exists evs. auto.
Defined.

(** X8. [_should_serve_from_cache] returns True exactly when the status
    is 403 and the text contains one of the two phrases as a substring;
    it returns for every response and changes nothing. *)
Theorem should_serve_from_cache_iff (l : nat) (r : Response) (w : World) :
  heap w !! l = Some r ->
  exists b,
    _should_serve_from_cache l w = Ok b w /\
    (b = true <-> status_code r = 403 /\ has_rate_limit_phrase r).
Proof.
  intros Hl. exists (rate_limitedb r).
  split; [by apply should_serve_from_cache_run | apply rate_limitedb_spec].
Qed.

Lemma should_serve_from_cache_iff_witness :
  exists b,
    _should_serve_from_cache 0%nat
      (Sample.world_with true Sample.throttled) = Ok b
      (Sample.world_with true Sample.throttled) /\
    (b = true <->
     status_code Sample.throttled = 403 /\
     has_rate_limit_phrase Sample.throttled).
Proof.
  apply (should_serve_from_cache_iff 0%nat
           Sample.throttled (Sample.world_with true Sample.throttled)).
  reflexivity.
Defined.

(** X9. Store, then revalidate. When an online GET for a key the cache
    lacks is answered with a response of status 200 that carries ETag or
    Last-Modified, the response is stored; the next online GET for the
    same URL, credential and query sends its ETag as [If-None-Match] and
    its Last-Modified as [If-Modified-Since], and when the upstream
    answers 304 and the body has fewer elements than the page size, the
    same object comes back with the status and body of the first answer,
    tagged ONLINE_HIT. *)
Theorem stored_response_is_revalidated_and_served `{E : Externals}
    (upstream : list Request -> Request -> option Response)
    (url : string) (auth data data' : option string)
    (url_params : option MultiDict) (n : Z) (r r' : Response) (len : nat)
    (w : World) :
  page_size_is url_params n ->
  cache w !! cache_key url auth = None ->
  upstream (sent w) (plain_get url auth url_params) = Some r ->
  cacheable r ->
  element_count r = Some len ->
  Z.of_nat len < n ->
  upstream (sent w ++ [plain_get url auth url_params])
           (conditional_get url auth url_params r) = Some r' ->
  status_code r' = 304 ->
  exists w1 w2 out,
    online_request upstream "GET" url auth data url_params w
      = Ok (length (heap w)) w1 /\
    online_request upstream "GET" url auth data' url_params w1
      = Ok (length (heap w)) w2 /\
    heap w2 !! length (heap w) = Some out /\
    serves "ONLINE_HIT" r out /\
    sent w2 = sent w ++ [plain_get url auth url_params;
                         conditional_get url auth url_params r] /\
    req_headers (conditional_get url auth url_params r) !! "If-None-Match"
      = CI.get "ETag" (headers r) /\
    req_headers (conditional_get url auth url_params r)
      !! "If-Modified-Since" = CI.get "Last-Modified" (headers r).
Proof.
  intros Hps Hc Hup Hca Hlen Hlt Hup' Hst'.
  assert (cacheableb r = true) as Hcb by by apply cacheableb_spec.
  assert (status_code r <> 304) as Hst by (destruct Hca as [-> _]; done).
  assert (rate_limitedb r = false) as Hrl.
  { unfold rate_limitedb. destruct Hca as [-> _]. done. }
  pose proof (run_absent_miss upstream url auth data url_params n r w
                Hps Hc Hup Hst Hrl) as Hrun1.
  unfold cached_if_cacheable in Hrun1. rewrite Hcb in Hrun1.
  set (w1 := bind_key _ _ _) in Hrun1.
  assert (cache w1 !! cache_key url auth = Some (length (heap w))) as Hc1
    by (subst w1; wsimpl; apply lookup_insert_eq).
  assert (heap w1 !! length (heap w)
          = Some (with_header "X-Cache" "ONLINE_MISS" r)) as Hh1
    by (subst w1; wsimpl; apply snoc_insert_lookup).
  assert (sent w1 = sent w ++ [plain_get url auth url_params]) as Hs1.
  { subst w1. unfold tagged, looked_up_miss.
    by rewrite sent_bind_key, sent_log_cache, sent_store, sent_answered,
         sent_log_cache. }
  assert (full_last_page n len (with_header "X-Cache" "ONLINE_MISS" r)
          = false) as Hfull.
  { unfold full_last_page. apply andb_false_iff. left. apply Z.eqb_neq. lia. }
  pose proof (run_cached_hit upstream url auth data' url_params n
                (length (heap w)) (with_header "X-Cache" "ONLINE_MISS" r)
                len r' w1 Hps Hc1 Hh1) as Hrun2.
  rewrite conditional_get_tagged, Hs1 in Hrun2.
  specialize (Hrun2 Hup' Hst' Hlen Hfull).
  eexists w1, _, _. split; [exact Hrun1|]. split; [exact Hrun2|].
  split; [by apply heap_tagged_old|].
  split; [eapply serves_retag, serves_with_header|].
  split.
  { unfold tagged, looked_up_hit.
    rewrite sent_store, sent_answered, !sent_log_cache by done.
    by rewrite Hs1, <- app_assoc. }
  unfold conditional_get, conditional_headers. cbn [req_headers].
  destruct (CI.get "ETag" (headers r)) as [etag|],
           (CI.get "Last-Modified" (headers r)) as [lm|];
    rewrite ?lookup_insert_eq, ?lookup_insert_ne by done;
    rewrite ?lookup_insert_eq;
    split; try done.
  all: by destruct auth.
Qed.

Lemma stored_response_is_revalidated_and_served_witness :
  exists w1 w2 out,
    online_request (E := Sample.externals) Sample.revalidating "GET"
      Sample.url None None None (Sample.empty_world true) = Ok 0%nat w1 /\
    online_request (E := Sample.externals) Sample.revalidating "GET"
      Sample.url None None None w1 = Ok 0%nat w2 /\
    heap w2 !! 0%nat = Some out /\
    serves "ONLINE_HIT" Sample.fresh_page out.
Proof.
  destruct (stored_response_is_revalidated_and_served
              (E := Sample.externals) Sample.revalidating Sample.url None
              None None None 100 Sample.fresh_page Sample.not_modified 2%nat
              (Sample.empty_world true))
    as (w1 & w2 & out & H1 & H2 & Hout & Hserves & _).
  - reflexivity.
  - reflexivity.
  - reflexivity.
  - split; [reflexivity|]. left. exists "v2". vm_compute; reflexivity.
  - reflexivity.
  - reflexivity.
  - vm_compute; reflexivity.
  - reflexivity.
  - exists w1, w2, out. auto.
Defined.

(** X10. Store, then serve offline. When an online GET for a key the
    cache lacks has stored the upstream's answer, and the monitor then
    flags the upstream offline, a GET dispatched for the same URL and
    credential sends nothing and returns the stored object with the
    status and body of that answer, tagged OFFLINE_HIT. *)
Theorem stored_response_is_served_offline `{E : Externals}
    (upstream : list Request -> Request -> option Response)
    (url : string) (auth data data' : option string)
    (url_params url_params' : option MultiDict) (n : Z) (r : Response)
    (w : World) :
  page_size_is url_params n ->
  cache w !! cache_key url auth = None ->
  upstream (sent w) (plain_get url auth url_params) = Some r ->
  cacheable r ->
  exists w1 w2 out,
    online_request upstream "GET" url auth data url_params w
      = Ok (length (heap w)) w1 /\
    conditional_request upstream "GET" url auth data' url_params'
      (with_health false w1) = Ok (length (heap w)) w2 /\
    heap w2 !! length (heap w) = Some out /\
    serves "OFFLINE_HIT" r out /\
    sent w2 = sent w ++ [plain_get url auth url_params].
Proof.
  intros Hps Hc Hup Hca.
  assert (cacheableb r = true) as Hcb by by apply cacheableb_spec.
  assert (status_code r <> 304) as Hst by (destruct Hca as [-> _]; done).
  assert (rate_limitedb r = false) as Hrl.
  { unfold rate_limitedb. destruct Hca as [-> _]. done. }
  pose proof (run_absent_miss upstream url auth data url_params n r w
                Hps Hc Hup Hst Hrl) as Hrun1.
  unfold cached_if_cacheable in Hrun1. rewrite Hcb in Hrun1.
  set (w1 := bind_key _ _ _) in Hrun1.
  assert (cache (with_health false w1) !! cache_key url auth
          = Some (length (heap w))) as Hc1
    by (subst w1; unfold with_health; wsimpl; apply lookup_insert_eq).
  assert (heap (with_health false w1) !! length (heap w)
          = Some (with_header "X-Cache" "ONLINE_MISS" r)) as Hh1
    by (subst w1; unfold with_health; wsimpl; apply snoc_insert_lookup).
  assert (sent (with_health false w1)
          = sent w ++ [plain_get url auth url_params]) as Hs1.
  { change (sent (with_health false w1)) with (sent w1).
    subst w1. unfold tagged, looked_up_miss.
    by rewrite sent_bind_key, sent_log_cache, sent_store, sent_answered,
         sent_log_cache. }
  eexists w1, _, _. split; [exact Hrun1|].
  split.
  { rewrite conditional_request_offline by done.
    by eapply run_offline_hit. }
  split; [by apply heap_tagged_here|].
  split; [eapply serves_retag, serves_with_header|].
  unfold tagged, looked_up_hit.
  by rewrite sent_store, !sent_log_cache.
Qed.

Lemma stored_response_is_served_offline_witness :
  exists w1 w2 out,
    online_request (E := Sample.externals) Sample.revalidating "GET"
      Sample.url None None None (Sample.empty_world true) = Ok 0%nat w1 /\
    conditional_request (E := Sample.externals) Sample.revalidating "GET"
      Sample.url None None None (with_health false w1) = Ok 0%nat w2 /\
    heap w2 !! 0%nat = Some out /\
    serves "OFFLINE_HIT" Sample.fresh_page out.
Proof.
  destruct (stored_response_is_served_offline (E := Sample.externals)
              Sample.revalidating Sample.url None None None None None 100
              Sample.fresh_page (Sample.empty_world true))
    as (w1 & w2 & out & H1 & H2 & Hout & Hserves & _).
  - reflexivity.
  - reflexivity.
  - reflexivity.
  - split; [reflexivity|]. left. exists "v2". vm_compute; reflexivity.
  - exists w1, w2, out. auto.
Defined.

(** X11. A dispatched call leaves every key other than the request's own
    bound to what it was bound to, and removes no binding: a key that was
    bound is bound after the call, whatever the outcome. *)
Theorem other_keys_are_untouched `{E : Externals}
    (upstream : list Request -> Request -> option Response)
    (method url : string) (auth data : option string)
    (url_params : option MultiDict) (w : World) (k : CacheKey) :
  (k <> cache_key url auth ->
   cache (world_of (conditional_request upstream method url auth data
                      url_params w)) !! k = cache w !! k) /\
  (is_Some (cache w !! k) ->
   is_Some (cache (world_of (conditional_request upstream method url auth
                               data url_params w)) !! k)).
Proof.
  destruct (online w) eqn:Hon.
  - rewrite (conditional_request_online _ _ _ _ _ _ _ Hon).
    destruct (online_request_cache_frame upstream method url auth data
                url_params w _ eq_refl) as [->|(l & r & -> & _)]; [done|].
    split.
    + intros Hk. by apply lookup_insert_ne.
    + intros Hs. destruct (decide (cache_key url auth = k)) as [<-|Hk].
      * rewrite lookup_insert_eq. by eexists.
      * by rewrite lookup_insert_ne.
  - rewrite (conditional_request_offline _ _ _ _ _ _ _ Hon).
    destruct (offline_request_frame method url auth 504 default_error_message
                w _ eq_refl) as [-> _]. done.
Qed.

Lemma other_keys_are_untouched_witness :
  cache (world_of (conditional_request (E := Sample.externals)
                     (Sample.always Sample.fresh_page) "GET"
                     "https://api.github.com/users/app-sre" None None None
                     (Sample.world_with true Sample.full_page)))
    !! (Sample.url, None)
  = cache (Sample.world_with true Sample.full_page) !! (Sample.url, None).
Proof.
  apply (other_keys_are_untouched (E := Sample.externals)
           (Sample.always Sample.fresh_page) "GET"
           "https://api.github.com/users/app-sre" None None None
           (Sample.world_with true Sample.full_page) (Sample.url, None)).
  discriminate.
Defined.

(** X12. A dispatched call leaves every response object that existed
    before it with its status, its body and its headers other than
    X-Cache, whatever the outcome; the only object it can change at all
    is the one bound to the key of the request. *)
Theorem objects_keep_status_and_body `{E : Externals}
    (upstream : list Request -> Request -> option Response)
    (method url : string) (auth data : option string)
    (url_params : option MultiDict) (w : World) (l : nat) (r : Response) :
  heap w !! l = Some r ->
  exists out,
    heap (world_of (conditional_request upstream method url auth data
                      url_params w)) !! l = Some out /\
    status_code out = status_code r /\
    content out = content r /\
    (forall h, Str.lower h <> Str.lower "X-Cache" ->
               CI.get h (headers out) = CI.get h (headers r)) /\
    (out <> r -> cache w !! cache_key url auth = Some l).
Proof.
  intros Hl. destruct (online w) eqn:Hon.
  - rewrite (conditional_request_online _ _ _ _ _ _ _ Hon).
    destruct (online_request_heap_frame upstream method url auth data
                url_params w _ eq_refl l r Hl)
      as [Hsame|(Hc & v & _ & Hout)].
    + exists r. by conjs.
    + exists (with_header "X-Cache" v r). split; [done|].
      destruct (serves_with_header v r) as (? & ? & _ & ?). by conjs.
  - rewrite (conditional_request_offline _ _ _ _ _ _ _ Hon).
    destruct (offline_request_frame method url auth 504 default_error_message
                w _ eq_refl) as [_ Hheap].
    destruct (Hheap l r Hl) as [Hsame|(_ & Hc & Hout)].
    + exists r. by conjs.
    + exists (with_header "X-Cache" "OFFLINE_HIT" r). split; [done|].
      destruct (serves_with_header "OFFLINE_HIT" r) as (? & ? & _ & ?).
      by conjs.
Qed.

Lemma objects_keep_status_and_body_witness :
  exists out,
    heap (world_of (conditional_request (E := Sample.externals)
                      Sample.revalidating "GET" Sample.url None None
                      Sample.two_per_page
                      (Sample.world_with true Sample.short_page)))
      !! 0%nat = Some out /\
    status_code out = 200 /\
    content out = "[1]".
Proof.
  destruct (objects_keep_status_and_body (E := Sample.externals)
              Sample.revalidating "GET" Sample.url None None
              Sample.two_per_page (Sample.world_with true Sample.short_page)
              0%nat Sample.short_page eq_refl)
    as (out & Hout & Hst & Hco & _).
  exists out. auto.
Defined.







(** X15. On a 304 for a cached key, a cached body that cannot be decoded
    makes the call raise the decoding error, and a decoded body without a
    length (a number, a boolean, null) makes it raise TypeError; in both
    cases after the one conditional request, with the cache and the
    cached object as they were. *)
Theorem undecodable_cached_body_raises `{E : Externals}
    (upstream : list Request -> Request -> option Response)
    (url : string) (auth data : option string)
    (url_params : option MultiDict) (n : Z) (c : nat) (cr r : Response)
    (w : World) :
  page_size_is url_params n ->
  cache w !! cache_key url auth = Some c ->
  heap w !! c = Some cr ->
  upstream (sent w) (conditional_get url auth url_params cr) = Some r ->
  status_code r = 304 ->
  element_count cr = None ->
  exists e w',
    online_request upstream "GET" url auth data url_params w = Raise e w' /\
    (e = JSONDecodeError <-> json_loads (content cr) = None) /\
    (e = TypeError <-> is_Some (json_loads (content cr))) /\
    sent w' = sent w ++ [conditional_get url auth url_params cr] /\
    cache w' = cache w /\
    heap w' !! c = Some cr.
Proof.
  intros Hps Hc Hcr Hup Hst Hlen. unfold element_count in Hlen.
  destruct (json_loads (content cr)) as [body|] eqn:Hj.
  - eexists TypeError, _.
    split; [by eapply run_cached_unsized|].
    split; [split; done|]. split; [split; [by eexists | done]|].
    split.
    { unfold answered, looked_up_hit.
      by rewrite sent_push, sent_log_send, !sent_log_cache. }
    split; [done|]. wsimpl. by apply snoc_lookup_old.
  - eexists JSONDecodeError, _.
    split; [by eapply run_cached_undecodable|].
    split; [split; done|]. split; [split; [done | by intros [? ?]]|].
    split.
    { unfold answered, looked_up_hit.
      by rewrite sent_push, sent_log_send, !sent_log_cache. }
    split; [done|]. wsimpl. by apply snoc_lookup_old.
Qed.

Lemma undecodable_cached_body_raises_witness :
  exists e w',
    online_request (E := Sample.externals) Sample.revalidating "GET"
      Sample.url None None None
      (Sample.world_with true Sample2.undecodable_page) = Raise e w' /\
    (e = JSONDecodeError <->
     json_loads (Externals := Sample.externals)
       (content Sample2.undecodable_page) = None) /\
    heap w' !! 0%nat = Some Sample2.undecodable_page.
Proof.
  destruct (undecodable_cached_body_raises (E := Sample.externals)
              Sample.revalidating Sample.url None None None 100 0%nat
              Sample2.undecodable_page Sample.not_modified
              (Sample.world_with true Sample2.undecodable_page))
    as (e & w' & Hres & Hjson & _ & _ & _ & Hold).
  - reflexivity.
  - vm_compute; reflexivity.
  - reflexivity.
  - vm_compute; reflexivity.
  - reflexivity.
  - reflexivity.
  - exists e, w'. auto.
Defined.

(** X16. If every key of the cache is bound to a response with status 200
    that carries ETag or Last-Modified, this is still so after a
    dispatched call, whatever its arguments and its outcome. *)
Theorem cache_holds_cacheable_preserved `{E : Externals}
    (upstream : list Request -> Request -> option Response)
    (method url : string) (auth data : option string)
    (url_params : option MultiDict) (w : World) :
  cache_holds_cacheable w ->
  cache_holds_cacheable
    (world_of (conditional_request upstream method url auth data
                 url_params w)).
Proof.
  intros Hinv.
  assert (forall res : result nat,
            (forall l r, heap w !! l = Some r ->
               heap (world_of res) !! l = Some r \/
               exists v, heap (world_of res) !! l
                         = Some (with_header "X-Cache" v r)) ->
            forall k l, cache w !! k = Some l ->
              exists r, heap (world_of res) !! l = Some r /\ cacheable r)
    as Hold.
  { intros res Hheap k l Hk. destruct (Hinv k l Hk) as (r & Hr & Hca).
    destruct (Hheap l r Hr) as [Hsame|[v Htag]].
    - by exists r.
    - exists (with_header "X-Cache" v r). split; [done|].
      by apply cacheable_tagged. }
  destruct (online w) eqn:Hon.
  - rewrite (conditional_request_online _ _ _ _ _ _ _ Hon).
    set (res := online_request upstream method url auth data url_params w).
    assert (forall l r, heap w !! l = Some r ->
              heap (world_of res) !! l = Some r \/
              exists v, heap (world_of res) !! l
                        = Some (with_header "X-Cache" v r)) as Hheap.
    { intros l r Hl.
      destruct (online_request_heap_frame upstream method url auth data
                  url_params w res eq_refl l r Hl)
        as [?|(_ & v & _ & ?)]; eauto. }
    intros k l Hk.
    destruct (online_request_cache_frame upstream method url auth data
                url_params w res eq_refl)
      as [Hsame|(l0 & r0 & Hnew & Hr0 & Hca0 & _)].
    + rewrite Hsame in Hk. by eapply Hold.
    + rewrite Hnew in Hk.
      destruct (decide (cache_key url auth = k)) as [<-|Hne].
      * rewrite lookup_insert_eq in Hk. simplify_eq. by exists r0.
      * rewrite lookup_insert_ne in Hk by done. by eapply Hold.
  - rewrite (conditional_request_offline _ _ _ _ _ _ _ Hon).
    set (res := offline_request method url auth 504 default_error_message w).
    destruct (offline_request_frame method url auth 504 default_error_message
                w res eq_refl) as [Hsame Hheap].
    intros k l Hk. rewrite Hsame in Hk.
    eapply Hold; [|exact Hk].
    intros l' r' Hl'. destruct (Hheap l' r' Hl') as [?|(_ & _ & ?)]; eauto.
Qed.

Lemma sample_world_holds_cacheable :
  cache_holds_cacheable (Sample.world_with true Sample.full_page).
Proof.
  intros k l H. unfold Sample.world_with in *. cbn [cache heap] in *.
  apply lookup_singleton_Some in H as [_ <-].
  exists Sample.full_page. split; [reflexivity|].
  split; [reflexivity|]. left. exists "v1". vm_compute; reflexivity.
Defined.

Lemma cache_holds_cacheable_preserved_witness :
  cache_holds_cacheable
    (world_of (conditional_request (E := Sample.externals)
                 (Sample.always Sample.fresh_page) "GET" Sample.url None
                 None None (Sample.world_with true Sample.full_page))).
Proof.
  apply (cache_holds_cacheable_preserved (E := Sample.externals)
           (Sample.always Sample.fresh_page) "GET" Sample.url None None None
           (Sample.world_with true Sample.full_page)
           sample_world_holds_cacheable).
Defined.

(** X17. A dispatched call that raises, whatever it raises, leaves the
    cache with the bindings it had and every response object as it was:
    nothing is stored and nothing is tagged on a path that ends in an
    exception. *)
Theorem exceptions_leave_cache_and_objects `{E : Externals}
    (upstream : list Request -> Request -> option Response)
    (method url : string) (auth data : option string)
    (url_params : option MultiDict) (w : World) (e : exn) (w' : World) :
  conditional_request upstream method url auth data url_params w
    = Raise e w' ->
  cache w' = cache w /\
  forall l r, heap w !! l = Some r -> heap w' !! l = Some r.
Proof.
  destruct (online w) eqn:Hon.
  - rewrite (conditional_request_online _ _ _ _ _ _ _ Hon).
    apply online_request_raise.
  - rewrite (conditional_request_offline _ _ _ _ _ _ _ Hon).
    apply offline_request_raise.
Qed.

Lemma exceptions_leave_cache_and_objects_witness :
  cache (world_of (conditional_request (E := Sample.externals)
                     Sample.revalidating "GET" Sample.url None None
                     Sample.two_per_page
                     (Sample.world_with true
                        Sample.full_page_last_modified_only)))
  = cache (Sample.world_with true Sample.full_page_last_modified_only).
Proof.
  apply (exceptions_leave_cache_and_objects (E := Sample.externals)
           Sample.revalidating "GET" Sample.url None None
           Sample.two_per_page
           (Sample.world_with true Sample.full_page_last_modified_only)
           KeyError).
  vm_compute; reflexivity.
Defined.

(** X18. A stale full page is replaced. When the cached page is full,
    carries no link and has an ETag, and the upstream answers the
    conditional request with 304 and the request sent again (without
    [If-None-Match]) with a response of status 200 that carries ETag or
    Last-Modified, that response is returned tagged ONLINE_MISS and the
    key is bound to it; the object that was cached before is as it was. *)
Theorem stale_full_page_is_replaced `{E : Externals}
    (upstream : list Request -> Request -> option Response)
    (url : string) (auth data : option string)
    (url_params : option MultiDict) (n : Z) (c : nat) (cr : Response)
    (len : nat) (r r2 : Response) (w : World) :
  page_size_is url_params n ->
  cache w !! cache_key url auth = Some c ->
  heap w !! c = Some cr ->
  element_count cr = Some len ->
  Z.of_nat len = n ->
  links_of cr = ∅ ->
  is_Some (CI.get "ETag" (headers cr)) ->
  upstream (sent w) (conditional_get url auth url_params cr) = Some r ->
  status_code r = 304 ->
  upstream (sent w ++ [conditional_get url auth url_params cr])
           (refetch_get url auth url_params cr) = Some r2 ->
  cacheable r2 ->
  exists w' out,
    online_request upstream "GET" url auth data url_params w
      = Ok (S (length (heap w))) w' /\
    cache w' !! cache_key url auth = Some (S (length (heap w))) /\
    heap w' !! S (length (heap w)) = Some out /\
    serves "ONLINE_MISS" r2 out /\
    heap w' !! c = Some cr /\
    req_headers (refetch_get url auth url_params cr) !! "If-None-Match"
      = None.
Proof.
  intros Hps Hc Hcr Hlen Hn Hlinks Het Hup Hst Hup2 Hca.
  assert (full_last_page n len cr = true) as Hfull.
  { unfold full_last_page.
    by rewrite andb_true_iff, Z.eqb_eq, bool_decide_eq_true. }
  assert (cacheableb r2 = true) as Hcb by by apply cacheableb_spec.
  eexists _, _. split; [by eapply run_cached_refetch|].
  unfold cached_if_cacheable. rewrite Hcb. wsimpl.
  split; [apply lookup_insert_eq|].
  split.
  { rewrite <- (snoc_length (heap w) r). apply snoc_insert_lookup. }
  split; [apply serves_with_header|].
  split.
  - apply lookup_lt_Some in Hcr as Hlt.
    rewrite list_lookup_insert_ne by lia.
    by apply snoc_lookup_old, snoc_lookup_old.
  - unfold refetch_get. cbn [req_headers]. apply lookup_delete_eq.
Qed.

Lemma stale_full_page_is_replaced_witness :
  exists w' out,
    online_request (E := Sample.externals) Sample.revalidating "GET"
      Sample.url None None Sample.two_per_page
      (Sample.world_with true Sample2.full_page_etag_only) = Ok 2%nat w' /\
    cache w' !! (Sample.url, None) = Some 2%nat /\
    heap w' !! 2%nat = Some out /\
    serves "ONLINE_MISS" Sample.fresh_page out /\
    heap w' !! 0%nat = Some Sample2.full_page_etag_only.
Proof.
  destruct (stale_full_page_is_replaced (E := Sample.externals)
              Sample.revalidating Sample.url None None Sample.two_per_page
              2 0%nat Sample2.full_page_etag_only 2%nat Sample.not_modified
              Sample.fresh_page
              (Sample.world_with true Sample2.full_page_etag_only))
    as (w' & out & Hres & Hk & Hout & Hserves & Hold & _).
  - reflexivity.
  - vm_compute; reflexivity.
  - reflexivity.
  - reflexivity.
  - reflexivity.
  - reflexivity.
  - exists "v1". vm_compute; reflexivity.
  - vm_compute; reflexivity.
  - reflexivity.
  - vm_compute; reflexivity.
  - split; [reflexivity|]. left. exists "v2". vm_compute; reflexivity.
  - exists w', out. auto.
Defined.
